(** * Phoenix engine demo: the signal-to-decision core

    A shallow embedding of [phoenix_simple_demo.py]: the four dataclasses,
    the engine [PhoenixEngineDemo] with its lifecycle, the confidence
    heuristic, the position sizer and the metrics update, and the demo
    driver ([generate_market_signal] and the timed loop of [main]).

    Modelling choices.
    - A Python [float] is an exact rational ([Q]); literals such as [0.7]
      are the decimal fractions they denote.  Rounding, infinities and NaN
      of IEEE binary64 are outside this model; the module [Binary64]
      repeats the arithmetic on machine floats, to replay concrete inputs.
    - A Python [int] is a [Z]; the true division of two ints is their
      exact quotient.
    - Exceptions are explicit: a computation returns [Py.result], and both
      division operators raise [ZeroDivisionError] on a zero divisor.
      The engine [PhoenixEngineDemo] takes signals whose numeric fields
      are floats; the module [Runtime] follows [process_signal] once more
      with what else it can raise: an int in a float field (converted,
      with [OverflowError] beyond the float range), the overflow of the
      int division, and the print, which needs the console.
    - The mutable engine object is passed and returned explicitly.
    - [datetime.now(timezone.utc).isoformat()] is an input [now] of
      [process_signal]; [print] calls produce no value and are left out
      of the engine.  The driver reads the random generator and the wall
      clock as inputs too, and the lines it prints that carry data are
      kept as values (module [Demo]). *)

From Stdlib Require Import ZArith QArith Qabs Lqa Lia String List Bool.
From Stdlib Require Import Floats.
Import ListNotations.

Open Scope Q_scope.

(** ** Python primitives used by the engine *)

Module Py.

Inductive exn : Type :=
| ZeroDivisionError.

Definition result (A : Type) : Type := (exn + A)%type.

Definition ret {A : Type} (x : A) : result A := inr x.

Definition raise {A : Type} (e : exn) : result A := inl e.

Definition bind {A B : Type} (m : result A) (k : A -> result B) : result B :=
  match m with
  | inl e => inl e
  | inr x => k x
  end.

(** [x > y] and [x < y] on floats. *)
Definition gt (x y : Q) : bool := negb (Qle_bool x y).

Definition lt (x y : Q) : bool := gt y x.

(** [min(x, y)]: the first argument is kept unless the second is strictly
    smaller. *)
Definition min (x y : Q) : Q := if lt y x then y else x.

(** [abs(x)]. *)
Definition abs (x : Q) : Q := Qabs x.

(** [x / y] on floats. *)
Definition truediv (x y : Q) : result Q :=
  if Qeq_bool y 0 then raise ZeroDivisionError else ret (x / y).

(** [a / b] on ints: true division, a float result. *)
Definition int_truediv (a b : Z) : result Q :=
  if (b =? 0)%Z then raise ZeroDivisionError
  else ret (inject_Z a / inject_Z b).

End Py.

Notation "x <- m ;; k" := (Py.bind m (fun x => k))
  (at level 61, m at next level, right associativity).

(** ** The dataclasses *)

Module PhoenixConfig.
Record t : Type := mk {
  capital : Q;
  risk_tolerance : Q;
  max_position_size : Q;
  trading_mode : string
}.
End PhoenixConfig.

Module MarketSignal.
Record t : Type := mk {
  token : string;
  price : Q;
  volume : Q;
  timestamp : string;
  signal_strength : Q
}.
End MarketSignal.

Module TradingSignal.
Record t : Type := mk {
  action : string;
  token : string;
  amount : Q;
  price : Q;
  confidence : Q;
  timestamp : string
}.
End TradingSignal.

Module PhoenixMetrics.
Record t : Type := mk {
  total_trades : Z;
  successful_trades : Z;
  total_pnl : Q;
  win_rate : Q;
  avg_trade_duration : Q;
  current_positions : Z
}.

(** Field assignments [m.f = v]. *)
Definition set_total_trades (m : t) (v : Z) : t :=
  mk v (successful_trades m) (total_pnl m) (win_rate m)
     (avg_trade_duration m) (current_positions m).

Definition set_successful_trades (m : t) (v : Z) : t :=
  mk (total_trades m) v (total_pnl m) (win_rate m)
     (avg_trade_duration m) (current_positions m).

Definition set_total_pnl (m : t) (v : Q) : t :=
  mk (total_trades m) (successful_trades m) v (win_rate m)
     (avg_trade_duration m) (current_positions m).

Definition set_win_rate (m : t) (v : Q) : t :=
  mk (total_trades m) (successful_trades m) (total_pnl m) v
     (avg_trade_duration m) (current_positions m).
End PhoenixMetrics.

(** ** The engine *)

Module PhoenixEngineDemo.

Record t : Type := mk {
  config : PhoenixConfig.t;
  metrics : PhoenixMetrics.t;
  active : bool
}.

Definition set_metrics (self : t) (m : PhoenixMetrics.t) : t :=
  mk (config self) m (active self).

Definition set_active (self : t) (b : bool) : t :=
  mk (config self) (metrics self) b.

Definition __init__ (capital : Q) : t :=
  mk (PhoenixConfig.mk capital 0.85 (capital * 0.1) "DEMO")
     (PhoenixMetrics.mk 0 0 0.0 0.0 0.0 0)
     false.

Definition activate (self : t) : t := set_active self true.

Definition deactivate (self : t) : t := set_active self false.

Definition get_metrics (self : t) : PhoenixMetrics.t := metrics self.

Definition calculate_confidence (self : t) (signal : MarketSignal.t)
  : Py.result Q :=
  q <- Py.truediv (MarketSignal.volume signal) 1000000.0 ;;
  let volume_factor := Py.min q 1.0 in
  let strength_factor := MarketSignal.signal_strength signal in
  let risk_factor := PhoenixConfig.risk_tolerance (config self) in
  Py.ret (Py.min (volume_factor * strength_factor * risk_factor) 1.0).

Definition calculate_position_size (self : t) (signal : MarketSignal.t)
    (confidence : Q) : Q :=
  let base_size := PhoenixConfig.max_position_size (config self) in
  let confidence_multiplier := confidence in
  let volatility_adjustment :=
    1.0 - Py.abs (MarketSignal.signal_strength signal - 0.5) in
  base_size * confidence_multiplier * volatility_adjustment.

Definition process_signal (self : t) (signal : MarketSignal.t) (now : string)
  : Py.result (option TradingSignal.t * t) :=
  if negb (active self) then Py.ret (None, self)
  else
    confidence <- calculate_confidence self signal ;;
    if Py.gt confidence 0.7 then
      let action :=
        if Py.gt (MarketSignal.signal_strength signal) 0.5
        then "BUY"%string else "SELL"%string in
      let amount := calculate_position_size self signal confidence in
      let trading_signal :=
        TradingSignal.mk action (MarketSignal.token signal) amount
          (MarketSignal.price signal) confidence now in
      (* Aktualizuj metryki *)
      let m := metrics self in
      let m :=
        PhoenixMetrics.set_total_trades m (PhoenixMetrics.total_trades m + 1) in
      let m :=
        if Py.gt confidence 0.8 then
          let m := PhoenixMetrics.set_successful_trades m
                     (PhoenixMetrics.successful_trades m + 1) in
          PhoenixMetrics.set_total_pnl m
            (PhoenixMetrics.total_pnl m + amount * 0.02)
        else m in
      m <- (if (PhoenixMetrics.total_trades m >? 0)%Z then
              w <- Py.int_truediv (PhoenixMetrics.successful_trades m)
                                  (PhoenixMetrics.total_trades m) ;;
              Py.ret (PhoenixMetrics.set_win_rate m w)
            else Py.ret m) ;;
      Py.ret (Some trading_signal, set_metrics self m)
    else Py.ret (None, self).

(** The metrics block of [process_signal] on its own, as the proofs below
    reason about it: the metrics [m] before the call, the confidence and
    the amount of the qualifying signal. *)
Definition update_metrics (m : PhoenixMetrics.t) (confidence amount : Q)
  : Py.result PhoenixMetrics.t :=
  let m :=
    PhoenixMetrics.set_total_trades m (PhoenixMetrics.total_trades m + 1) in
  let m :=
    if Py.gt confidence 0.8 then
      let m := PhoenixMetrics.set_successful_trades m
                 (PhoenixMetrics.successful_trades m + 1) in
      PhoenixMetrics.set_total_pnl m
        (PhoenixMetrics.total_pnl m + amount * 0.02)
    else m in
  if (PhoenixMetrics.total_trades m >? 0)%Z then
    w <- Py.int_truediv (PhoenixMetrics.successful_trades m)
                        (PhoenixMetrics.total_trades m) ;;
    Py.ret (PhoenixMetrics.set_win_rate m w)
  else Py.ret m.

End PhoenixEngineDemo.

(** ** The arithmetic on IEEE binary64 *)

(** The three float computations of the engine on primitive floats, with
    the fields they read as arguments.  Used to replay concrete inputs with
    the rounding Python performs. *)
Module Binary64.

#[local] Set Warnings "-inexact-float".
Local Open Scope float_scope.

Definition min (x y : float) : float := if y <? x then y else x.

(** [capital * 0.1], the base size [__init__] stores. *)
Definition max_position_size (capital : float) : float := capital * 0.1.

Definition calculate_confidence (risk_tolerance volume signal_strength : float)
  : float :=
  let volume_factor := min (volume / 1000000.0) 1.0 in
  let strength_factor := signal_strength in
  let risk_factor := risk_tolerance in
  min (volume_factor * strength_factor * risk_factor) 1.0.

Definition calculate_position_size
    (max_position_size signal_strength confidence : float) : float :=
  let base_size := max_position_size in
  let confidence_multiplier := confidence in
  let volatility_adjustment := 1.0 - abs (signal_strength - 0.5) in
  base_size * confidence_multiplier * volatility_adjustment.

(** [total_pnl += amount * 0.02]. *)
Definition add_pnl (total_pnl amount : float) : float :=
  total_pnl + amount * 0.02.

End Binary64.

(** ** Sequences of calls on one engine *)

Inductive call : Type :=
| Activate
| Deactivate
| ProcessSignal (signal : MarketSignal.t) (now : string)
| GetMetrics.

(** One call; the value it returns to the caller is dropped, the engine
    after the call is kept.  [get_metrics] only reads. *)
Definition step (self : PhoenixEngineDemo.t) (c : call)
  : Py.result PhoenixEngineDemo.t :=
  match c with
  | Activate => Py.ret (PhoenixEngineDemo.activate self)
  | Deactivate => Py.ret (PhoenixEngineDemo.deactivate self)
  | ProcessSignal signal now =>
      r <- PhoenixEngineDemo.process_signal self signal now ;;
      Py.ret (snd r)
  | GetMetrics =>
      let _ := PhoenixEngineDemo.get_metrics self in Py.ret self
  end.

Fixpoint run (self : PhoenixEngineDemo.t) (calls : list call)
  : Py.result PhoenixEngineDemo.t :=
  match calls with
  | [] => Py.ret self
  | c :: calls' => self' <- step self c ;; run self' calls'
  end.

(** The switch after a sequence of calls, read off the calls alone: the
    last [activate] or [deactivate] decides, the other calls do not count. *)
Fixpoint switch_after (b : bool) (calls : list call) : bool :=
  match calls with
  | [] => b
  | Activate :: calls' => switch_after true calls'
  | Deactivate :: calls' => switch_after false calls'
  | _ :: calls' => switch_after b calls'
  end.

(** The number of [process_signal] calls in a sequence. *)
Fixpoint count_process_signal (calls : list call) : Z :=
  match calls with
  | [] => 0%Z
  | ProcessSignal _ _ :: calls' => (1 + count_process_signal calls')%Z
  | _ :: calls' => count_process_signal calls'
  end.

(** ** The demo driver: signal generation and the timed loop *)

(** The driver reads its environment: the random generator, the UTC clock
    behind [datetime.now] and the wall clock behind [time.time].  Each
    reading is an input here.  Of the lines the driver prints, the two
    that carry data are kept as values; banners are left out. *)
Module Demo.

(** [random.choice(seq)] on a sequence that is not empty (head [x], tail
    [xs]): the element at an index below the length, the index being what
    the generator draws. *)
Definition choice {A : Type} (x : A) (xs : list A) (k : nat) : A :=
  nth (k mod S (length xs)) (x :: xs) x.

(** What one call of [generate_market_signal] reads: the draw behind
    [random.choice], the three results of [random.random()] in the order
    price, volume, strength, and the clock. *)
Record draws : Type := mk_draws {
  pick : nat;
  u_price : Q;
  u_volume : Q;
  u_strength : Q;
  utc_now : string
}.

(** [random.random()] returns a float in [0.0, 1.0). *)
Definition unit_interval (u : Q) : Prop := 0 <= u < 1.

Definition draws_ok (d : draws) : Prop :=
  unit_interval (u_price d) /\ unit_interval (u_volume d) /\
  unit_interval (u_strength d).

Definition tokens : list string :=
  ["BONK"; "WIF"; "POPCAT"; "MOODENG"; "PNUT"]%string.

Definition generate_market_signal (d : draws) : MarketSignal.t :=
  let token := choice "BONK"%string
                 ["WIF"; "POPCAT"; "MOODENG"; "PNUT"]%string (pick d) in
  MarketSignal.mk token
    (0.001 + u_price d * 0.1)
    (500000.0 + u_volume d * 2000000.0)
    (utc_now d)
    (u_strength d).

(** [x >= y] on floats. *)
Definition ge (x y : Q) : bool := Qle_bool y x.

(** One pass of the loop reads the wall clock for the loop test, the draws
    of the signal, the UTC clock for the trade and the wall clock again
    for [current_time]. *)
Record tick : Type := mk_tick {
  clock_test : Q;
  rnd : draws;
  trade_now : string;
  clock_current : Q
}.

(** The printed lines that carry data: an executed trade, and the periodic
    metrics line with the three values it shows. *)
Inductive line : Type :=
| TradeLine (trading_signal : TradingSignal.t)
| MetricsLine (total_trades : Z) (win_rate : Q) (total_pnl : Q).

(** How a run of the driver ends: the readings given ran out before the
    loop test failed, an exception escaped, or [main] returned. *)
Inductive outcome : Type :=
| Exhausted
| Raised (e : Py.exn)
| Finished (phoenix : PhoenixEngineDemo.t) (out : list line).

Definition demo_duration : Q := 30.

(** The [while] loop of [main] and the deactivation after it.
    [asyncio.sleep(2)] changes nothing the loop holds; the time it takes
    shows in the next reading of the clock (see [paced]). *)
Fixpoint loop (start_time last_metrics_time : Q)
    (phoenix : PhoenixEngineDemo.t) (out : list line) (env : list tick)
  : outcome :=
  match env with
  | [] => Exhausted
  | k :: env' =>
      if Py.lt (clock_test k - start_time) demo_duration then
        let signal := generate_market_signal (rnd k) in
        match PhoenixEngineDemo.process_signal phoenix signal (trade_now k) with
        | inl e => Raised e
        | inr (trading_signal, phoenix) =>
            let out :=
              match trading_signal with
              | Some ts => out ++ [TradeLine ts]
              | None => out
              end in
            let current_time := clock_current k in
            if ge (current_time - last_metrics_time) 10 then
              let metrics := PhoenixEngineDemo.get_metrics phoenix in
              let out :=
                out ++ [MetricsLine (PhoenixMetrics.total_trades metrics)
                                    (PhoenixMetrics.win_rate metrics)
                                    (PhoenixMetrics.total_pnl metrics)] in
              loop start_time current_time phoenix out env'
            else loop start_time last_metrics_time phoenix out env'
        end
      else Finished (PhoenixEngineDemo.deactivate phoenix) out
  end.

(** [main]: [start_time] is the first reading of the wall clock. *)
Definition main (start_time : Q) (env : list tick) : outcome :=
  let phoenix := PhoenixEngineDemo.__init__ 1000.0 in
  let phoenix := PhoenixEngineDemo.activate phoenix in
  let last_metrics_time := start_time in
  loop start_time last_metrics_time phoenix [] env.

(** The trades among the printed lines. *)
Fixpoint trades (out : list line) : list TradingSignal.t :=
  match out with
  | [] => []
  | TradeLine ts :: out' => ts :: trades out'
  | MetricsLine _ _ _ :: out' => trades out'
  end.

(** The lines one pass adds after its call of [process_signal]. *)
Definition pass_lines (r : option TradingSignal.t) : list line :=
  match r with
  | Some ts => [TradeLine ts]
  | None => []
  end.

(** The printed lines agree with the engine: a metrics line shows as
    [total_trades] the number of trade lines printed before it ([seen]
    counts the ones before [out]) and a win rate in [0, 1]. *)
Fixpoint lines_consistent (seen : Z) (out : list line) : Prop :=
  match out with
  | [] => True
  | TradeLine _ :: out' => lines_consistent (seen + 1) out'
  | MetricsLine n w _ :: out' =>
      n = seen /\ 0 <= w <= 1 /\ lines_consistent seen out'
  end.

(** What holds of every trade the demo prints: a BUY of a listed token at
    a price in [0.001, 0.101), scored strictly between 0.7 and 0.85, for
    an amount strictly between 35 and 805/17 (under 47.36). *)
Definition demo_trade (ts : TradingSignal.t) : Prop :=
  TradingSignal.action ts = "BUY"%string /\
  In (TradingSignal.token ts) tokens /\
  0.001 <= TradingSignal.price ts < 0.101 /\
  0.7 < TradingSignal.confidence ts < 0.85 /\
  35 < TradingSignal.amount ts < 805 # 17.

(** The passes of the loop under a list of readings: the readings up to
    the first whose loop test fails. *)
Fixpoint passes (start_time : Q) (env : list tick) : list tick :=
  match env with
  | [] => []
  | k :: env' =>
      if Py.lt (clock_test k - start_time) demo_duration
      then k :: passes start_time env'
      else []
  end.

(** The loop test fails on the reading [k]. *)
Definition stops (start_time : Q) (k : tick) : Prop :=
  Py.lt (clock_test k - start_time) demo_duration = false.

(** The call on the engine that one pass makes. *)
Definition tick_call (k : tick) : call :=
  ProcessSignal (generate_market_signal (rnd k)) (trade_now k).

(** A wall clock that never runs backwards and on which [asyncio.sleep(2)]
    takes two seconds or more: the first loop test reads [t] or later,
    each further one at least 2 after the one before. *)
Fixpoint paced (t : Q) (env : list tick) : Prop :=
  match env with
  | [] => True
  | k :: env' => t <= clock_test k /\ paced (clock_test k + 2) env'
  end.

End Demo.

(** ** The metrics invariant *)

(** The counters and the win rate a metrics block may hold: what the engine
    keeps true from construction on. *)
Definition metrics_ok (m : PhoenixMetrics.t) : Prop :=
  (0 <= PhoenixMetrics.successful_trades m <= PhoenixMetrics.total_trades m)%Z /\
  0 <= PhoenixMetrics.win_rate m <= 1 /\
  ((0 < PhoenixMetrics.total_trades m)%Z ->
   PhoenixMetrics.win_rate m ==
   inject_Z (PhoenixMetrics.successful_trades m) /
   inject_Z (PhoenixMetrics.total_trades m)) /\
  (~ (0 < PhoenixMetrics.total_trades m)%Z -> PhoenixMetrics.win_rate m == 0).

(** ** Concrete inputs *)

(** The engine of [main]: [PhoenixEngineDemo(1000.0)], activated. *)
Definition phoenix : PhoenixEngineDemo.t :=
  PhoenixEngineDemo.activate (PhoenixEngineDemo.__init__ 1000.0).

(** High volume, strength 0.9: confidence 0.765. *)
Definition signal_A : MarketSignal.t :=
  MarketSignal.mk "BONK" 0.05 2000000.0 "2025-01-01T00:00:00+00:00" 0.9.

(** Low volume, strength 0.2: confidence 0.017. *)
Definition signal_B : MarketSignal.t :=
  MarketSignal.mk "WIF" 0.05 100000.0 "2025-01-01T00:00:02+00:00" 0.2.

(** Strength 0.96 at the reference volume: confidence 0.816. *)
Definition signal_C : MarketSignal.t :=
  MarketSignal.mk "PNUT" 0.05 1000000.0 "2025-01-01T00:00:04+00:00" 0.96.

(** A strength outside [0, 1]. *)
Definition signal_out_of_range : MarketSignal.t :=
  MarketSignal.mk "POPCAT" 0.05 1000000.0 "2025-01-01T00:00:06+00:00" 2.0.

(** Strength 14/17 at the reference volume: under risk tolerance 0.85 the
    confidence is 0.7 exactly. *)
Definition signal_at_threshold : MarketSignal.t :=
  MarketSignal.mk "MOODENG" 0.05 1000000.0 "2025-01-01T00:00:08+00:00" (14 # 17).

(** A neutral strength, 0.5. *)
Definition signal_neutral : MarketSignal.t :=
  MarketSignal.mk "WIF" 0.05 1000000.0 "2025-01-01T00:00:09+00:00" 0.5.

(** An active engine whose configuration holds risk tolerance 2.0 and a
    base size of 100; [__init__] builds none such (it fixes 0.85), the
    dataclass admits it.  Under it a neutral signal is scored above 0.7. *)
Definition engine_risk_2 : PhoenixEngineDemo.t :=
  PhoenixEngineDemo.mk
    (PhoenixConfig.mk 1000.0 2.0 100.0 "DEMO")
    (PhoenixMetrics.mk 0 0 0.0 0.0 0.0 0)
    true.

(** The engine [PhoenixEngineDemo(-1000.0)], activated. *)
Definition phoenix_negative : PhoenixEngineDemo.t :=
  PhoenixEngineDemo.activate (PhoenixEngineDemo.__init__ (-1000.0)).

(** Draws of a strong signal (strength 0.95, volume 2,300,000) and of a
    weak one (strength 0.3, volume 700,000). *)
Definition draws_strong : Demo.draws :=
  Demo.mk_draws 7 0.5 0.9 0.95 "2025-01-01T00:00:00+00:00".

Definition draws_weak : Demo.draws :=
  Demo.mk_draws 3 0.5 0.1 0.3 "2025-01-01T00:00:02+00:00".

(** Four rounds of readings for a loop started at second 100: passes at
    seconds 100, 102 and 112, and a reading at second 131 that ends the
    loop. *)
Definition readings_4 : list Demo.tick :=
  [Demo.mk_tick 100 draws_strong "2025-01-01T00:00:00+00:00" 100.1;
   Demo.mk_tick 102 draws_weak "2025-01-01T00:00:02+00:00" 102.1;
   Demo.mk_tick 112 draws_strong "2025-01-01T00:00:12+00:00" 112.5;
   Demo.mk_tick 131 draws_strong "2025-01-01T00:00:31+00:00" 131].

(** [n] rounds of readings taken every two seconds from [t] on, each with
    the strong draws. *)
Fixpoint readings_every_2s (n : nat) (t : Q) : list Demo.tick :=
  match n with
  | O => []
  | S n' =>
      Demo.mk_tick t draws_strong "2025-01-01T00:00:00+00:00" t
      :: readings_every_2s n' (t + 2)
  end.

Definition now0 : string := "2025-01-01T00:00:10+00:00".

(** ** [process_signal] with its exceptions and its print *)

(** The engine above takes signals whose numeric fields are floats and
    leaves the print of [process_signal] out.  This module follows the
    same statements with what they can raise at run time: a field
    annotated [float] may hold an int, whose conversion to a float
    overflows beyond the float range; the true division of two ints
    overflows likewise; and the print needs the console.  The engine is
    mutated in place, so an exception leaves it as the statements before
    the raise made it: a computation returns its result or its exception
    together with the engine. *)
Module Runtime.

(** What the print can raise, as the console decides. *)
Inductive print_error : Type :=
| UnicodeEncodeError
| BrokenPipeError.

Inductive exn : Type :=
| ZeroDivisionError
| OverflowError
| PrintError (e : print_error).

(** A value of a field annotated [float]: a float or an int. *)
Inductive number : Type :=
| Int (z : Z)
| Float (x : Q).

(** The magnitude from which a number rounds beyond the largest float:
    2^1024 - 2^970. *)
Definition float_bound : Q := inject_Z (2 ^ 1024 - 2 ^ 970).

Definition fits_float (x : Q) : bool := negb (Qle_bool float_bound (Qabs x)).

(** The number read exactly, as comparisons read it. *)
Definition value (n : number) : Q :=
  match n with
  | Int z => inject_Z z
  | Float x => x
  end.

(** The conversion of an operand of float arithmetic, and of an argument
    of the [f] format, to a float. *)
Definition to_float (n : number) : exn + Q :=
  match n with
  | Float x => inr x
  | Int z => if fits_float (inject_Z z) then inr (inject_Z z)
             else inl OverflowError
  end.

(** [x / y] on floats. *)
Definition truediv (x y : Q) : exn + Q :=
  if Qeq_bool y 0 then inl ZeroDivisionError else inr (x / y).

(** [a / b] on ints. *)
Definition int_truediv (a b : Z) : exn + Q :=
  if (b =? 0)%Z then inl ZeroDivisionError
  else if fits_float (inject_Z a / inject_Z b)
       then inr (inject_Z a / inject_Z b)
       else inl OverflowError.

Module MarketSignal.
Record t : Type := mk {
  token : string;
  price : number;
  volume : number;
  timestamp : string;
  signal_strength : number
}.
End MarketSignal.

Module TradingSignal.
Record t : Type := mk {
  action : string;
  token : string;
  amount : Q;
  price : number;
  confidence : Q;
  timestamp : string
}.
End TradingSignal.

(** Computations on the engine: a result or an exception, and the engine
    as the computation left it. *)
Definition M (A : Type) : Type :=
  PhoenixEngineDemo.t -> (exn + A) * PhoenixEngineDemo.t.

Definition ret {A : Type} (x : A) : M A := fun self => (inr x, self).

Definition bind {A B : Type} (m : M A) (k : A -> M B) : M B :=
  fun self =>
    match m self with
    | (inl e, self') => (inl e, self')
    | (inr x, self') => k x self'
    end.

Definition lift {A : Type} (r : exn + A) : M A := fun self => (r, self).

Definition get : M PhoenixEngineDemo.t := fun self => (inr self, self).

(** An assignment to a field of [self.metrics]. *)
Definition assign (f : PhoenixMetrics.t -> PhoenixMetrics.t) : M unit :=
  fun self =>
    (inr tt,
     PhoenixEngineDemo.set_metrics self (f (PhoenixEngineDemo.metrics self))).

Declare Scope runtime_scope.
Notation "x <- m ;; k" := (bind m (fun x => k))
  (at level 61, m at next level, right associativity) : runtime_scope.
Local Open Scope runtime_scope.

Definition calculate_confidence (self : PhoenixEngineDemo.t)
    (signal : MarketSignal.t) : exn + Q :=
  match to_float (MarketSignal.volume signal) with
  | inl e => inl e
  | inr volume =>
      match truediv volume 1000000.0 with
      | inl e => inl e
      | inr q =>
          let volume_factor := Py.min q 1.0 in
          match to_float (MarketSignal.signal_strength signal) with
          | inl e => inl e
          | inr strength_factor =>
              let risk_factor :=
                PhoenixConfig.risk_tolerance (PhoenixEngineDemo.config self) in
              inr (Py.min (volume_factor * strength_factor * risk_factor) 1.0)
          end
      end
  end.

Definition calculate_position_size (self : PhoenixEngineDemo.t)
    (signal : MarketSignal.t) (confidence : Q) : exn + Q :=
  let base_size :=
    PhoenixConfig.max_position_size (PhoenixEngineDemo.config self) in
  let confidence_multiplier := confidence in
  match to_float (MarketSignal.signal_strength signal) with
  | inl e => inl e
  | inr strength =>
      let volatility_adjustment := 1.0 - Py.abs (strength - 0.5) in
      inr (base_size * confidence_multiplier * volatility_adjustment)
  end.

(** The print of line 103: the price goes through the [f] format, then
    the line goes to the console, which accepts it ([None]) or raises. *)
Definition print_signal (console : option print_error)
    (signal : MarketSignal.t) : M unit :=
  _ <- lift (to_float (MarketSignal.price signal)) ;;
  match console with
  | None => ret tt
  | Some e => lift (inl (PrintError e))
  end.

Definition process_signal (console : option print_error)
    (signal : MarketSignal.t) (now : string) : M (option TradingSignal.t) :=
  self <- get ;;
  if negb (PhoenixEngineDemo.active self) then ret None
  else
    confidence <- lift (calculate_confidence self signal) ;;
    if Py.gt confidence 0.7 then
      let action :=
        if Py.gt (value (MarketSignal.signal_strength signal)) 0.5
        then "BUY"%string else "SELL"%string in
      amount <- lift (calculate_position_size self signal confidence) ;;
      let trading_signal :=
        TradingSignal.mk action (MarketSignal.token signal) amount
          (MarketSignal.price signal) confidence now in
      _ <- assign (fun m => PhoenixMetrics.set_total_trades m
                              (PhoenixMetrics.total_trades m + 1)) ;;
      _ <- (if Py.gt confidence 0.8 then
              _ <- assign (fun m => PhoenixMetrics.set_successful_trades m
                                      (PhoenixMetrics.successful_trades m + 1)) ;;
              assign (fun m => PhoenixMetrics.set_total_pnl m
                                 (PhoenixMetrics.total_pnl m + amount * 0.02))
            else ret tt) ;;
      self1 <- get ;;
      _ <- (if (PhoenixMetrics.total_trades (PhoenixEngineDemo.metrics self1)
                >? 0)%Z then
              w <- lift (int_truediv
                           (PhoenixMetrics.successful_trades
                              (PhoenixEngineDemo.metrics self1))
                           (PhoenixMetrics.total_trades
                              (PhoenixEngineDemo.metrics self1))) ;;
              assign (fun m => PhoenixMetrics.set_win_rate m w)
            else ret tt) ;;
      _ <- print_signal console signal ;;
      ret (Some trading_signal)
    else ret None.

(** A computation that does not raise [ZeroDivisionError], whatever the
    engine it starts from. *)
Definition no_zero_division {A : Type} (m : M A) : Prop :=
  forall self : PhoenixEngineDemo.t,
    fst (m self) <> inl ZeroDivisionError.

(** A number a float can hold: any float, and an int inside the float
    range. *)
Definition in_float_range (n : number) : Prop :=
  match n with
  | Float _ => True
  | Int z => fits_float (inject_Z z) = true
  end.

End Runtime.

(** A signal with float fields, and the trade made for one. *)
Definition of_signal (signal : MarketSignal.t) : Runtime.MarketSignal.t :=
  Runtime.MarketSignal.mk (MarketSignal.token signal)
    (Runtime.Float (MarketSignal.price signal))
    (Runtime.Float (MarketSignal.volume signal))
    (MarketSignal.timestamp signal)
    (Runtime.Float (MarketSignal.signal_strength signal)).

Definition of_trade (ts : TradingSignal.t) : Runtime.TradingSignal.t :=
  Runtime.TradingSignal.mk (TradingSignal.action ts) (TradingSignal.token ts)
    (TradingSignal.amount ts) (Runtime.Float (TradingSignal.price ts))
    (TradingSignal.confidence ts) (TradingSignal.timestamp ts).

(** The demo engine's signal A with an int volume of 10^400, and with the
    int volume 2,000,000. *)
Definition signal_huge_volume : Runtime.MarketSignal.t :=
  Runtime.MarketSignal.mk "BONK" (Runtime.Float 0.05)
    (Runtime.Int (10 ^ 400)) "2025-01-01T00:00:00+00:00" (Runtime.Float 0.9).

Definition signal_int_volume : Runtime.MarketSignal.t :=
  Runtime.MarketSignal.mk "BONK" (Runtime.Float 0.05)
    (Runtime.Int 2000000) "2025-01-01T00:00:00+00:00" (Runtime.Float 0.9).

(** ** Facts about the Python primitives *)

Section PyFacts.

Lemma gt_true_iff (x y : Q) : Py.gt x y = true <-> y < x.
Proof.
  unfold Py.gt. rewrite negb_true_iff.
  split; intro H.
  - apply Qnot_le_lt. intro Hle.
    apply Qle_bool_iff in Hle. congruence.
  - destruct (Qle_bool x y) eqn:E; [|reflexivity].
    apply Qle_bool_iff in E. lra.
Qed.

Lemma gt_false_iff (x y : Q) : Py.gt x y = false <-> x <= y.
Proof.
  unfold Py.gt. rewrite negb_false_iff. apply Qle_bool_iff.
Qed.

Lemma gt_cases (x y : Q) :
  (Py.gt x y = true /\ y < x) \/ (Py.gt x y = false /\ x <= y).
Proof.
  destruct (Py.gt x y) eqn:E.
  - left. split; [reflexivity | now apply gt_true_iff].
  - right. split; [reflexivity | now apply gt_false_iff].
Qed.

Lemma min_cases (x y : Q) :
  (Py.min x y = y /\ y < x) \/ (Py.min x y = x /\ x <= y).
Proof.
  unfold Py.min, Py.lt.
  destruct (gt_cases x y) as [[-> H] | [-> H]]; auto.
Qed.

Lemma min_le_r (x y : Q) : Py.min x y <= y.
Proof. destruct (min_cases x y) as [[-> H] | [-> H]]; lra. Qed.

Lemma min_le_l (x y : Q) : Py.min x y <= x.
Proof. destruct (min_cases x y) as [[-> H] | [-> H]]; lra. Qed.

Lemma min_glb (x y z : Q) : z <= x -> z <= y -> z <= Py.min x y.
Proof. intros; destruct (min_cases x y) as [[-> H1] | [-> H1]]; lra. Qed.

Lemma truediv_nonzero (x y : Q) :
  ~ y == 0 -> Py.truediv x y = Py.ret (x / y).
Proof.
  intro H. unfold Py.truediv.
  destruct (Qeq_bool y 0) eqn:E; [|reflexivity].
  apply Qeq_bool_iff in E. contradiction.
Qed.

Lemma int_truediv_nonzero (a b : Z) :
  b <> 0%Z -> Py.int_truediv a b = Py.ret (inject_Z a / inject_Z b).
Proof.
  intro H. unfold Py.int_truediv.
  destruct (Z.eqb_spec b 0); [contradiction | reflexivity].
Qed.

(** A quotient of ints [0 <= a <= b], [0 < b], lies in [0, 1]. *)
Lemma int_ratio_bounds (a b : Z) :
  (0 <= a <= b)%Z -> (0 < b)%Z ->
  0 <= inject_Z a / inject_Z b <= 1.
Proof.
  intros [Ha Hab] Hb.
  assert (Hb' : 0 < inject_Z b).
  { change 0 with (inject_Z 0). now rewrite <- Zlt_Qlt. }
  assert (Ha' : 0 <= inject_Z a).
  { change 0 with (inject_Z 0). now rewrite <- Zle_Qle. }
  assert (Hab' : inject_Z a <= inject_Z b) by now rewrite <- Zle_Qle.
  split.
  - apply Qle_shift_div_l; [assumption | lra].
  - apply Qle_shift_div_r; [assumption | lra].
Qed.

End PyFacts.

(** ** Equations of the engine's methods *)

Section EngineFacts.

Import PhoenixEngineDemo.

Variable self : PhoenixEngineDemo.t.
Variable signal : MarketSignal.t.

(** The division by the literal [1000000.0] never raises, so the score is
    always a value. *)
Lemma calculate_confidence_eq :
  calculate_confidence self signal =
  Py.ret (Py.min (Py.min (MarketSignal.volume signal / 1000000.0) 1.0
                  * MarketSignal.signal_strength signal
                  * PhoenixConfig.risk_tolerance (config self)) 1.0).
Proof.
  unfold calculate_confidence.
  rewrite truediv_nonzero; [reflexivity | discriminate].
Qed.

Lemma calculate_confidence_total :
  exists c, calculate_confidence self signal = Py.ret c.
Proof. eexists. apply calculate_confidence_eq. Qed.

Lemma process_signal_inactive_eq (now : string) :
  active self = false ->
  process_signal self signal now = Py.ret (None, self).
Proof. intro H. unfold process_signal. now rewrite H. Qed.

Lemma process_signal_reject_eq (now : string) (c : Q) :
  active self = true ->
  calculate_confidence self signal = Py.ret c ->
  Py.gt c 0.7 = false ->
  process_signal self signal now = Py.ret (None, self).
Proof.
  intros Ha Hc Hg. unfold process_signal.
  rewrite Ha, Hc. cbn. now rewrite Hg.
Qed.

Lemma process_signal_accept_eq (now : string) (c : Q) :
  active self = true ->
  calculate_confidence self signal = Py.ret c ->
  Py.gt c 0.7 = true ->
  process_signal self signal now =
  (m <- update_metrics (metrics self) c (calculate_position_size self signal c) ;;
   Py.ret (Some (TradingSignal.mk
                   (if Py.gt (MarketSignal.signal_strength signal) 0.5
                    then "BUY"%string else "SELL"%string)
                   (MarketSignal.token signal)
                   (calculate_position_size self signal c)
                   (MarketSignal.price signal) c now),
           set_metrics self m)).
Proof.
  intros Ha Hc Hg. unfold process_signal.
  rewrite Ha, Hc. cbn. now rewrite Hg.
Qed.

End EngineFacts.

(** ** The metrics block *)

Section MetricsFacts.

Import PhoenixEngineDemo.

(** The block in closed form: it returns, whatever the counters are. *)
Lemma update_metrics_eq (m : PhoenixMetrics.t) (c a : Q) :
  let total := (PhoenixMetrics.total_trades m + 1)%Z in
  let won := if Py.gt c 0.8 then (PhoenixMetrics.successful_trades m + 1)%Z
             else PhoenixMetrics.successful_trades m in
  let pnl := if Py.gt c 0.8 then PhoenixMetrics.total_pnl m + a * 0.02
             else PhoenixMetrics.total_pnl m in
  let rate := if (total >? 0)%Z then inject_Z won / inject_Z total
              else PhoenixMetrics.win_rate m in
  update_metrics m c a =
  Py.ret (PhoenixMetrics.mk total won pnl rate
            (PhoenixMetrics.avg_trade_duration m)
            (PhoenixMetrics.current_positions m)).
Proof.
  intros total won pnl rate. subst total won pnl rate.
  unfold update_metrics.
  destruct (Py.gt c 0.8); cbn;
    destruct (PhoenixMetrics.total_trades m + 1 >? 0)%Z eqn:E; cbn;
    try reflexivity;
    (rewrite int_truediv_nonzero; [reflexivity | lia]).
Qed.

Lemma update_metrics_total (m : PhoenixMetrics.t) (c a : Q) :
  exists m', update_metrics m c a = Py.ret m'.
Proof. eexists. apply update_metrics_eq. Qed.

Lemma update_metrics_ok (m m' : PhoenixMetrics.t) (c a : Q) :
  metrics_ok m -> update_metrics m c a = Py.ret m' -> metrics_ok m'.
Proof.
  intros (Hc & _ & _ & _) H.
  rewrite update_metrics_eq in H. injection H as <-.
  assert (Hpos : (PhoenixMetrics.total_trades m + 1 >? 0)%Z = true)
    by (apply Z.gtb_lt; lia).
  unfold metrics_ok; cbn. rewrite Hpos.
  assert (Hw : (0 <= (if Py.gt c 0.8
                      then PhoenixMetrics.successful_trades m + 1
                      else PhoenixMetrics.successful_trades m)
                <= PhoenixMetrics.total_trades m + 1)%Z)
    by (destruct (Py.gt c 0.8); lia).
  repeat split; try tauto.
  - apply int_ratio_bounds; [exact Hw | lia].
  - apply int_ratio_bounds; [exact Hw | lia].
  - lia.
Qed.

(** Only a success adds to [total_pnl], and it adds [amount * 0.02]. *)
Lemma update_metrics_pnl (m m' : PhoenixMetrics.t) (c a : Q) :
  update_metrics m c a = Py.ret m' ->
  PhoenixMetrics.total_pnl m' =
  if Py.gt c 0.8 then PhoenixMetrics.total_pnl m + a * 0.02
  else PhoenixMetrics.total_pnl m.
Proof.
  intro H. rewrite update_metrics_eq in H. now injection H as <-.
Qed.

Lemma init_metrics_ok (capital : Q) : metrics_ok (metrics (__init__ capital)).
Proof. unfold metrics_ok; cbn. repeat split; try lia; try lra; discriminate. Qed.

End MetricsFacts.

(** ** The outcomes of [process_signal] *)

Section ProcessFacts.

Import PhoenixEngineDemo.

(** Every call falls in one of two cases: nothing is returned and the engine
    is the one passed in, or a trade is returned and only the metrics moved. *)
Lemma process_signal_cases (self : t) (signal : MarketSignal.t) (now : string) :
  exists c, calculate_confidence self signal = Py.ret c /\
  (((active self = false \/ Py.gt c 0.7 = false) /\
    process_signal self signal now = Py.ret (None, self))
   \/
   (active self = true /\ Py.gt c 0.7 = true /\
    exists m,
      update_metrics (metrics self) c (calculate_position_size self signal c)
      = Py.ret m /\
      process_signal self signal now =
      Py.ret (Some (TradingSignal.mk
                      (if Py.gt (MarketSignal.signal_strength signal) 0.5
                       then "BUY"%string else "SELL"%string)
                      (MarketSignal.token signal)
                      (calculate_position_size self signal c)
                      (MarketSignal.price signal) c now),
              set_metrics self m))).
Proof.
  destruct (calculate_confidence_total self signal) as [c Hc].
  exists c. split; [exact Hc|].
  destruct (active self) eqn:Ha.
  - destruct (Py.gt c 0.7) eqn:Hg.
    + right. repeat split.
      destruct (update_metrics_total (metrics self) c
                  (calculate_position_size self signal c)) as [m Hm].
      exists m. split; [exact Hm|].
      rewrite (process_signal_accept_eq self signal now c Ha Hc Hg).
      now rewrite Hm.
    + left. split; [now right|].
      apply (process_signal_reject_eq self signal now c Ha Hc Hg).
  - left. split; [now left|].
    now apply process_signal_inactive_eq.
Qed.


(** The volatility adjustment of an in-range strength lies in [0.5, 1]. *)
Lemma volatility_adjustment_bounds (s : Q) :
  0 <= s <= 1 -> 0.5 <= 1.0 - Py.abs (s - 0.5) <= 1.
Proof.
  intros [H0 H1]. unfold Py.abs.
  apply Qabs_case; intro; split; lra.
Qed.

Lemma position_size_nonneg (self : t) (signal : MarketSignal.t) (c : Q) :
  0 <= PhoenixConfig.max_position_size (config self) ->
  0 <= MarketSignal.signal_strength signal <= 1 ->
  0 <= c ->
  0 <= calculate_position_size self signal c.
Proof.
  intros Hb Hs Hc. unfold calculate_position_size.
  pose proof (volatility_adjustment_bounds _ Hs) as [Hv _].
  apply Qmult_le_0_compat; [apply Qmult_le_0_compat; assumption | lra].
Qed.

(** One call cannot lower [total_pnl] when the position size is a
    non-negative base and the strength is in range. *)
Lemma process_signal_pnl (self : t) (signal : MarketSignal.t) (now : string) :
  0 <= PhoenixConfig.max_position_size (config self) ->
  0 <= MarketSignal.signal_strength signal <= 1 ->
  exists r self',
    process_signal self signal now = Py.ret (r, self') /\
    PhoenixMetrics.total_pnl (metrics self) <=
    PhoenixMetrics.total_pnl (metrics self').
Proof.
  intros Hb Hs.
  destruct (process_signal_cases self signal now)
    as (c & _ & [[_ E] | (_ & Hg & m & Hm & E)]).
  - exists None, self. split; [exact E | lra].
  - eexists _, _. split; [exact E|]. cbn.
    rewrite (update_metrics_pnl _ _ _ _ Hm).
    destruct (gt_cases c 0.8) as [[-> H8] | [-> _]]; [|lra].
    assert (0 <= calculate_position_size self signal c)
      by (apply position_size_nonneg; [assumption | assumption | lra]).
    lra.
Qed.

End ProcessFacts.

(** ** The engine's contract *)

Section Contract.

Import PhoenixEngineDemo.

(** C1. While the engine is active the computed confidence decides the
    call: at or below 0.7 (0.7 itself included) nothing is returned and the
    engine, hence its metrics, is the one passed in; strictly above 0.7 a
    TradingSignal is returned. *)
Theorem process_signal_threshold
    (self : t) (signal : MarketSignal.t) (now : string) :
  active self = true ->
  exists c,
    calculate_confidence self signal = Py.ret c /\
    (c <= 0.7 -> process_signal self signal now = Py.ret (None, self)) /\
    (0.7 < c ->
     exists ts self', process_signal self signal now = Py.ret (Some ts, self')).
Proof.
  intro Ha.
  destruct (process_signal_cases self signal now) as (c & Hc & Hcases).
  exists c. split; [exact Hc|].
  destruct Hcases as [[Hno E] | (_ & Hg & m & _ & E)].
  - destruct Hno as [Hoff | Hg]; [congruence|].
    apply gt_false_iff in Hg.
    split; intro H; [exact E | lra].
  - apply gt_true_iff in Hg.
    split; intro H; [lra | eauto].
Qed.

(** C3. A signal that reaches an inactive engine yields nothing, and the
    engine after the call is the engine before it: no field of the metrics
    has moved. *)
Theorem process_signal_inactive
    (self : t) (signal : MarketSignal.t) (now : string) :
  active self = false ->
  process_signal self signal now = Py.ret (None, self) /\
  forall r self', process_signal self signal now = Py.ret (r, self') ->
                  r = None /\ metrics self' = metrics self.
Proof.
  intro Hoff.
  pose proof (process_signal_inactive_eq self signal now Hoff) as E.
  split; [exact E|].
  intros r self' H. rewrite E in H.
  injection H as <- <-. now split.
Qed.

(** C4. With risk tolerance and signal strength in [0, 1] and a
    non-negative volume, the scoring function returns a confidence in
    [0, 1]. *)
Theorem calculate_confidence_range (self : t) (signal : MarketSignal.t) :
  0 <= PhoenixConfig.risk_tolerance (config self) <= 1 ->
  0 <= MarketSignal.signal_strength signal <= 1 ->
  0 <= MarketSignal.volume signal ->
  exists c, calculate_confidence self signal = Py.ret c /\ 0 <= c <= 1.
Proof.
  intros Hr Hs Hv.
  eexists. split; [apply calculate_confidence_eq|].
  set (vf := Py.min (MarketSignal.volume signal / 1000000.0) 1.0).
  assert (Hvf : 0 <= vf <= 1).
  { split.
    - apply min_glb; [|lra].
      apply Qle_shift_div_l; lra.
    - pose proof (min_le_r (MarketSignal.volume signal / 1000000.0) 1.0).
      fold vf in H. lra. }
  split.
  - apply min_glb; [|lra].
    apply Qmult_le_0_compat; [apply Qmult_le_0_compat|]; tauto.
  - apply Qle_trans with 1.0; [apply min_le_r | lra].
Qed.

(** C5, as the code has it. For a non-negative [max_position_size], a
    signal strength in [0, 1] and a confidence in [0, 1], the position size
    is non-negative and at most [max_position_size]. *)
Theorem calculate_position_size_range
    (self : t) (signal : MarketSignal.t) (confidence : Q) :
  0 <= PhoenixConfig.max_position_size (config self) ->
  0 <= MarketSignal.signal_strength signal <= 1 ->
  0 <= confidence <= 1 ->
  0 <= calculate_position_size self signal confidence
    <= PhoenixConfig.max_position_size (config self).
Proof.
  intros Hb Hs [Hc0 Hc1].
  split; [now apply position_size_nonneg|].
  unfold calculate_position_size.
  pose proof (volatility_adjustment_bounds _ Hs) as [Hv0 Hv1].
  set (b := PhoenixConfig.max_position_size (config self)) in *.
  set (v := 1.0 - Py.abs (MarketSignal.signal_strength signal - 0.5)) in *.
  assert (Hbc : 0 <= b * confidence <= b) by (split; nra).
  nra.
Qed.

(** C6, as the code has it. On an engine whose [max_position_size] is
    non-negative, a call of [process_signal] with a signal strength in
    [0, 1] returns and leaves [total_pnl] at least where it was. *)
Theorem process_signal_total_pnl_monotone
    (self : t) (signal : MarketSignal.t) (now : string) :
  0 <= PhoenixConfig.max_position_size (config self) ->
  0 <= MarketSignal.signal_strength signal <= 1 ->
  exists r self',
    process_signal self signal now = Py.ret (r, self') /\
    PhoenixMetrics.total_pnl (metrics self) <=
    PhoenixMetrics.total_pnl (metrics self').
Proof. intros Hb Hs. now apply process_signal_pnl. Qed.

(** C7. A qualifying signal (engine active, confidence above 0.7) is
    answered with the action BUY when its strength is above 0.5 and with
    SELL otherwise; a strength of exactly 0.5 gives SELL. *)
Theorem process_signal_action
    (self : t) (signal : MarketSignal.t) (now : string) (c : Q) :
  active self = true ->
  calculate_confidence self signal = Py.ret c ->
  0.7 < c ->
  exists ts self',
    process_signal self signal now = Py.ret (Some ts, self') /\
    (0.5 < MarketSignal.signal_strength signal ->
     TradingSignal.action ts = "BUY"%string) /\
    (MarketSignal.signal_strength signal <= 0.5 ->
     TradingSignal.action ts = "SELL"%string) /\
    (MarketSignal.signal_strength signal == 0.5 ->
     TradingSignal.action ts = "SELL"%string).
Proof.
  intros Ha Hc Hgt.
  apply gt_true_iff in Hgt.
  pose proof (process_signal_accept_eq self signal now c Ha Hc Hgt) as E.
  destruct (update_metrics_total (metrics self) c
              (calculate_position_size self signal c)) as [m Hm].
  rewrite Hm in E. cbn in E.
  eexists _, _. split; [exact E|]. cbn.
  destruct (gt_cases (MarketSignal.signal_strength signal) 0.5)
    as [[-> Hs] | [-> Hs]].
  - repeat split; intro H; try reflexivity; lra.
  - repeat split; intro H; try reflexivity; lra.
Qed.

(** On signals with float fields and with the print left out, the call
    returns for every engine and every signal (strengths outside [0, 1],
    prices or volumes that are zero or negative): the true division of
    the win rate runs only under [total_trades > 0].  What an int field
    and the print add is in [Runtime]. *)
Theorem process_signal_never_raises
    (self : t) (signal : MarketSignal.t) (now : string) :
  exists r self', process_signal self signal now = Py.ret (r, self').
Proof.
  destruct (process_signal_cases self signal now)
    as (c & _ & [[_ E] | (_ & _ & m & _ & E)]); eauto.
Qed.

(** C10. A returned TradingSignal carries the token and the price of the
    input signal, the confidence [calculate_confidence] computed for it,
    which is above 0.7, and the amount [calculate_position_size] gives for
    that confidence. *)
Theorem process_signal_result_fields
    (self self' : t) (signal : MarketSignal.t) (now : string)
    (ts : TradingSignal.t) :
  process_signal self signal now = Py.ret (Some ts, self') ->
  TradingSignal.token ts = MarketSignal.token signal /\
  TradingSignal.price ts = MarketSignal.price signal /\
  calculate_confidence self signal = Py.ret (TradingSignal.confidence ts) /\
  0.7 < TradingSignal.confidence ts /\
  TradingSignal.amount ts =
  calculate_position_size self signal (TradingSignal.confidence ts).
Proof.
  intro H.
  destruct (process_signal_cases self signal now)
    as (c & Hc & [[_ E] | (_ & Hg & m & _ & E)]);
    rewrite E in H; [discriminate|].
  injection H as <- _. cbn.
  apply gt_true_iff in Hg. auto.
Qed.

End Contract.

(** ** Sequences of calls keep the metrics invariant *)

Section Traces.

Import PhoenixEngineDemo.

Lemma step_metrics_ok (self : t) (c : call) :
  metrics_ok (metrics self) ->
  exists self', step self c = Py.ret self' /\ metrics_ok (metrics self').
Proof.
  intro Hok. destruct c as [ | | signal now | ]; cbn.
  - eexists; split; [reflexivity | exact Hok].
  - eexists; split; [reflexivity | exact Hok].
  - destruct (process_signal_cases self signal now)
      as (c & _ & [[_ E] | (_ & _ & m & Hm & E)]); rewrite E; cbn.
    + eexists; split; [reflexivity | exact Hok].
    + eexists; split; [reflexivity | cbn].
      exact (update_metrics_ok _ _ _ _ Hok Hm).
  - eexists; split; [reflexivity | exact Hok].
Qed.

Lemma run_metrics_ok (calls : list call) :
  forall self : t,
    metrics_ok (metrics self) ->
    exists self', run self calls = Py.ret self' /\ metrics_ok (metrics self').
Proof.
  induction calls as [ | c calls IH]; intros self Hok.
  - exists self. split; [reflexivity | exact Hok].
  - destruct (step_metrics_ok self c Hok) as (self1 & E1 & Hok1).
    destruct (IH self1 Hok1) as (self2 & E2 & Hok2).
    exists self2. split; [|exact Hok2].
    cbn. rewrite E1. exact E2.
Qed.



(** C2. From a freshly constructed engine, every sequence of activate,
    deactivate, process_signal and get_metrics calls runs to an engine
    whose metrics have [successful_trades <= total_trades], a [win_rate]
    in [0, 1], and a [win_rate] equal to
    [successful_trades / total_trades] when [total_trades > 0] and to 0
    otherwise. *)
Theorem run_metrics_invariant (capital : Q) (calls : list call) :
  exists self',
    run (__init__ capital) calls = Py.ret self' /\
    (PhoenixMetrics.successful_trades (metrics self') <=
     PhoenixMetrics.total_trades (metrics self'))%Z /\
    0 <= PhoenixMetrics.win_rate (metrics self') <= 1 /\
    ((PhoenixMetrics.total_trades (metrics self') > 0)%Z ->
     PhoenixMetrics.win_rate (metrics self') ==
     inject_Z (PhoenixMetrics.successful_trades (metrics self')) /
     inject_Z (PhoenixMetrics.total_trades (metrics self'))) /\
    (~ (PhoenixMetrics.total_trades (metrics self') > 0)%Z ->
     PhoenixMetrics.win_rate (metrics self') == 0).
Proof.
  destruct (run_metrics_ok calls (__init__ capital) (init_metrics_ok capital))
    as (self' & E & (Hc & Hw & Hpos & Hzero)).
  exists self'. split; [exact E|].
  split; [lia|]. split; [exact Hw|].
  split; intro H; [apply Hpos | apply Hzero]; lia.
Qed.

(** C9, as the code has it. The constructor takes the capital alone: the
    risk tolerance is 0.85, the trading mode is DEMO, and
    [max_position_size] is the capital times 0.1, for every capital; the
    metrics start at zero and the engine starts inactive. *)
Theorem init_configuration (capital : Q) :
  PhoenixConfig.capital (config (__init__ capital)) = capital /\
  PhoenixConfig.risk_tolerance (config (__init__ capital)) == 0.85 /\
  PhoenixConfig.max_position_size (config (__init__ capital)) ==
  capital * 0.1 /\
  PhoenixConfig.trading_mode (config (__init__ capital)) = "DEMO"%string /\
  metrics (__init__ capital) = PhoenixMetrics.mk 0 0 0.0 0.0 0.0 0 /\
  active (__init__ capital) = false.
Proof. cbn. repeat split; reflexivity. Qed.

End Traces.

(** ** Where the stated contract and the code part *)

Section Counterexamples.

Import PhoenixEngineDemo.

(** C5 does not hold for every signal and confidence. On the demo engine
    (base size 100) the signal of strength 2.0 is scored 1.0 and sized
    -50; a confidence of 2.0 sizes a neutral signal at 200; and on the
    engine built from capital -1000 (base size -100) the signal A is sized
    -45.9, above the base size. *)
Lemma calculate_position_size_unbounded :
  calculate_confidence phoenix signal_out_of_range = Py.ret 1.0 /\
  calculate_position_size phoenix signal_out_of_range 1.0 == -50 /\
  calculate_position_size phoenix signal_out_of_range 1.0 < 0 /\
  PhoenixConfig.max_position_size (config phoenix) <
  calculate_position_size phoenix signal_neutral 2.0 /\
  PhoenixConfig.max_position_size (config phoenix_negative) <
  calculate_position_size phoenix_negative signal_A 0.765.
Proof. vm_compute. repeat split; reflexivity. Qed.

(** C6 does not hold for every call. The demo engine answers the signal of
    strength 2.0 with a trade of amount -50 that counts as a success, and
    [total_pnl] goes from 0 to -1. *)
Lemma process_signal_total_pnl_drops :
  exists ts self',
    process_signal phoenix signal_out_of_range now0 = Py.ret (Some ts, self') /\
    TradingSignal.amount ts == -50 /\
    PhoenixMetrics.total_pnl (metrics phoenix) == 0 /\
    PhoenixMetrics.total_pnl (metrics self') == -1 /\
    PhoenixMetrics.total_pnl (metrics self') <
    PhoenixMetrics.total_pnl (metrics phoenix).
Proof.
  eexists _, _. split.
  - vm_compute. reflexivity.
  - vm_compute. repeat split; reflexivity.
Qed.

(** C9 does not hold of the constructor. No call of it yields capital 1000
    with a [max_position_size] of 50, and none yields a risk tolerance of
    0.5: the caller supplies neither. *)
Lemma init_parameters_not_free :
  (~ exists capital,
       PhoenixConfig.capital (config (__init__ capital)) == 1000 /\
       PhoenixConfig.max_position_size (config (__init__ capital)) == 50) /\
  (~ exists capital,
       PhoenixConfig.risk_tolerance (config (__init__ capital)) == 0.5).
Proof.
  split.
  - intros (capital & Hc & Hm). cbn in Hc, Hm. lra.
  - intros (capital & Hr). cbn in Hr. lra.
Qed.

End Counterexamples.

(** ** The theorems at concrete inputs *)

Section Witnesses.

Import PhoenixEngineDemo.

Lemma process_signal_threshold_witness :
  active phoenix = true /\
  exists c,
    calculate_confidence phoenix signal_at_threshold = Py.ret c /\
    (c <= 0.7 ->
     process_signal phoenix signal_at_threshold now0 = Py.ret (None, phoenix)) /\
    (0.7 < c ->
     exists ts self',
       process_signal phoenix signal_at_threshold now0 = Py.ret (Some ts, self')).
Proof.
  split; [reflexivity|].
  apply (process_signal_threshold phoenix signal_at_threshold now0).
  reflexivity.
Defined.

Lemma process_signal_inactive_witness :
  active (__init__ 1000.0) = false /\
  process_signal (__init__ 1000.0) signal_A now0 =
  Py.ret (None, __init__ 1000.0) /\
  forall r self',
    process_signal (__init__ 1000.0) signal_A now0 = Py.ret (r, self') ->
    r = None /\ metrics self' = metrics (__init__ 1000.0).
Proof.
  split; [reflexivity|].
  apply (process_signal_inactive (__init__ 1000.0) signal_A now0).
  reflexivity.
Defined.

Lemma calculate_confidence_range_witness :
  exists c, calculate_confidence phoenix signal_A = Py.ret c /\ 0 <= c <= 1.
Proof.
  apply (calculate_confidence_range phoenix signal_A); cbn; lra.
Defined.

Lemma calculate_position_size_range_witness :
  0 <= calculate_position_size phoenix signal_A 0.765
    <= PhoenixConfig.max_position_size (config phoenix).
Proof.
  apply (calculate_position_size_range phoenix signal_A 0.765); cbn; lra.
Defined.

Lemma process_signal_total_pnl_monotone_witness :
  exists r self',
    process_signal phoenix signal_C now0 = Py.ret (r, self') /\
    PhoenixMetrics.total_pnl (metrics phoenix) <=
    PhoenixMetrics.total_pnl (metrics self').
Proof.
  apply (process_signal_total_pnl_monotone phoenix signal_C now0); cbn; lra.
Defined.

Lemma process_signal_action_witness :
  exists ts self',
    process_signal engine_risk_2 signal_neutral now0 = Py.ret (Some ts, self') /\
    (0.5 < MarketSignal.signal_strength signal_neutral ->
     TradingSignal.action ts = "BUY"%string) /\
    (MarketSignal.signal_strength signal_neutral <= 0.5 ->
     TradingSignal.action ts = "SELL"%string) /\
    (MarketSignal.signal_strength signal_neutral == 0.5 ->
     TradingSignal.action ts = "SELL"%string).
Proof.
  eapply (process_signal_action engine_risk_2 signal_neutral now0).
  - reflexivity.
  - apply calculate_confidence_eq.
  - vm_compute. reflexivity.
Defined.

Lemma process_signal_result_fields_witness :
  exists ts self',
    process_signal phoenix signal_A now0 = Py.ret (Some ts, self') /\
    TradingSignal.token ts = MarketSignal.token signal_A /\
    TradingSignal.price ts = MarketSignal.price signal_A /\
    calculate_confidence phoenix signal_A = Py.ret (TradingSignal.confidence ts) /\
    0.7 < TradingSignal.confidence ts /\
    TradingSignal.amount ts =
    calculate_position_size phoenix signal_A (TradingSignal.confidence ts).
Proof.
  eexists _, _. split.
  - vm_compute. reflexivity.
  - eapply (process_signal_result_fields phoenix _ signal_A now0).
    vm_compute. reflexivity.
Defined.


End Witnesses.

(** ** Runs of the engine on the scenarios of the specification *)

Section Scenarios.

Import PhoenixEngineDemo.

(** Scenario A: volume 2,000,000 and strength 0.9 under risk tolerance 0.85
    give confidence 0.765, a BUY of amount 45.9, one trade, no success. *)
Example scenario_A :
  exists ts self',
    process_signal phoenix signal_A now0 = Py.ret (Some ts, self') /\
    TradingSignal.action ts = "BUY"%string /\
    TradingSignal.confidence ts == 0.765 /\
    TradingSignal.amount ts == 45.9 /\
    PhoenixMetrics.total_trades (metrics self') = 1%Z /\
    PhoenixMetrics.successful_trades (metrics self') = 0%Z /\
    PhoenixMetrics.win_rate (metrics self') == 0.
Proof.
  eexists _, _. split; [vm_compute; reflexivity|].
  vm_compute. repeat split; reflexivity.
Qed.

(** Scenario B: volume 100,000 and strength 0.2 give confidence 0.017 and
    no trade; the engine is untouched. *)
Example scenario_B :
  (exists c, calculate_confidence phoenix signal_B = Py.ret c /\ c == 0.017) /\
  process_signal phoenix signal_B now0 = Py.ret (None, phoenix).
Proof.
  split; [eexists; split; [apply calculate_confidence_eq|]|];
    vm_compute; reflexivity.
Qed.

(** The threshold is exclusive: a confidence of exactly 0.7 gives no
    trade. *)
Example confidence_at_threshold :
  (exists c, calculate_confidence phoenix signal_at_threshold = Py.ret c /\
             c == 0.7) /\
  process_signal phoenix signal_at_threshold now0 = Py.ret (None, phoenix).
Proof.
  split; [eexists; split; [apply calculate_confidence_eq|]|];
    vm_compute; reflexivity.
Qed.

(** Scenario C: a confidence above 0.8 (here 0.816) counts as a success and
    adds [amount * 0.02] to [total_pnl]. *)
Example scenario_C :
  exists ts self',
    process_signal phoenix signal_C now0 = Py.ret (Some ts, self') /\
    TradingSignal.confidence ts == 0.816 /\
    PhoenixMetrics.successful_trades (metrics self') = 1%Z /\
    PhoenixMetrics.total_pnl (metrics self') ==
    PhoenixMetrics.total_pnl (metrics phoenix) + TradingSignal.amount ts * 0.02.
Proof.
  eexists _, _. split; [vm_compute; reflexivity|].
  vm_compute. repeat split; reflexivity.
Qed.

(** Scenario D: three qualifying signals, one of them above 0.8, leave
    three trades, one success and a win rate of one third; the
    deactivation that follows resets nothing. *)
Example scenario_D :
  exists self',
    run (__init__ 1000.0)
        [Activate; ProcessSignal signal_A now0; GetMetrics;
         ProcessSignal signal_C now0; ProcessSignal signal_A now0;
         Deactivate; ProcessSignal signal_C now0]
    = Py.ret self' /\
    PhoenixMetrics.total_trades (metrics self') = 3%Z /\
    PhoenixMetrics.successful_trades (metrics self') = 1%Z /\
    PhoenixMetrics.win_rate (metrics self') == 1 # 3 /\
    active self' = false.
Proof.
  eexists. split; [vm_compute; reflexivity|].
  vm_compute. repeat split; reflexivity.
Qed.

End Scenarios.

(** ** The out-of-range signal on machine floats *)

Section Binary64Replay.

#[local] Set Warnings "-inexact-float".

(** On binary64 the demo engine (capital 1000.0) has base size exactly
    100.0, scores the signal of volume 1,000,000 and strength 2.0 at 1.0
    (above 0.8), sizes it at -50.0 and moves [total_pnl] from 0.0 to
    -1.0: the rational model and the machine agree on this input. *)
Lemma binary64_out_of_range_signal :
  Binary64.max_position_size 1000.0 = 100.0%float /\
  Binary64.calculate_confidence 0.85 1000000.0 2.0 = 1.0%float /\
  (0.8 <? Binary64.calculate_confidence 0.85 1000000.0 2.0)%float = true /\
  Binary64.calculate_position_size 100.0 2.0 1.0 = (-50.0)%float /\
  Binary64.add_pnl 0.0 (-50.0) = (-1.0)%float /\
  (Binary64.add_pnl 0.0 (-50.0) <? 0.0)%float = true.
Proof. vm_compute. repeat split; reflexivity. Qed.

End Binary64Replay.

(** ** What a trade tells about the call that made it *)

Section TradeFacts.

Import PhoenixEngineDemo.

(** A returned trade comes from the accepting branch. *)
Lemma process_signal_trade_inv (self self' : t) (signal : MarketSignal.t)
    (now : string) (ts : TradingSignal.t) :
  process_signal self signal now = Py.ret (Some ts, self') ->
  exists c m,
    active self = true /\
    calculate_confidence self signal = Py.ret c /\
    0.7 < c /\
    update_metrics (metrics self) c (calculate_position_size self signal c)
    = Py.ret m /\
    ts = TradingSignal.mk
           (if Py.gt (MarketSignal.signal_strength signal) 0.5
            then "BUY"%string else "SELL"%string)
           (MarketSignal.token signal)
           (calculate_position_size self signal c)
           (MarketSignal.price signal) c now /\
    self' = set_metrics self m.
Proof.
  intro H.
  destruct (process_signal_cases self signal now)
    as (c & Hc & [[_ E] | (Ha & Hg & m & Hm & E)]);
    rewrite E in H; [discriminate|].
  injection H as <- <-.
  exists c, m. apply gt_true_iff in Hg. auto 7.
Qed.

(** A confidence above a bound [b] means that the product of the three
    factors is above [b]; the volume factor is at most 1 and at most the
    volume over 1,000,000, and the confidence is at most 1 and at most the
    product. *)
Lemma confidence_above_inv (self : t) (signal : MarketSignal.t) (c b : Q) :
  calculate_confidence self signal = Py.ret c ->
  b < c ->
  exists vf,
    vf <= 1 /\
    vf <= MarketSignal.volume signal / 1000000.0 /\
    b < vf * MarketSignal.signal_strength signal
        * PhoenixConfig.risk_tolerance (config self) /\
    c <= vf * MarketSignal.signal_strength signal
         * PhoenixConfig.risk_tolerance (config self) /\
    c <= 1.
Proof.
  intros Hc Hb. rewrite calculate_confidence_eq in Hc.
  injection Hc as Hc.
  set (vf := Py.min (MarketSignal.volume signal / 1000000.0) 1.0) in *.
  exists vf.
  pose proof (min_le_r (MarketSignal.volume signal / 1000000.0) 1.0) as H1.
  pose proof (min_le_l (MarketSignal.volume signal / 1000000.0) 1.0) as H2.
  fold vf in H1, H2.
  set (p := vf * MarketSignal.signal_strength signal
            * PhoenixConfig.risk_tolerance (config self)) in *.
  pose proof (min_le_r p 1.0) as H3. pose proof (min_le_l p 1.0) as H4.
  rewrite Hc in H3, H4.
  repeat split; lra.
Qed.

(** With the volume factor at most 1 and strength and risk tolerance
    non-negative, the product of the factors is at most strength times
    risk tolerance. *)
Lemma product_le_strength_risk (vf s r b : Q) :
  vf <= 1 -> 0 <= s -> 0 <= r -> b < vf * s * r -> 0 <= b ->
  b < s * r /\ 0 < vf.
Proof.
  intros Hvf Hs Hr Hb H0.
  assert (Hsr : 0 <= s * r) by (apply Qmult_le_0_compat; assumption).
  assert (Hp : vf * s * r == vf * (s * r)) by ring.
  split.
  - assert (vf * (s * r) <= 1 * (s * r)) by (apply Qmult_le_compat_r; assumption).
    lra.
  - destruct (Qlt_le_dec 0 vf) as [H | H]; [exact H | exfalso].
    assert (vf * (s * r) <= 0 * (s * r)) by (apply Qmult_le_compat_r; assumption).
    lra.
Qed.

(** The size of a position never exceeds a non-negative base when the
    confidence is in [0, 1], whatever the strength. *)
Lemma position_size_le_base (self : t) (signal : MarketSignal.t) (c : Q) :
  0 <= PhoenixConfig.max_position_size (config self) ->
  0 <= c <= 1 ->
  calculate_position_size self signal c
  <= PhoenixConfig.max_position_size (config self).
Proof.
  intros Hb [Hc0 Hc1]. unfold calculate_position_size.
  set (b := PhoenixConfig.max_position_size (config self)) in *.
  assert (Hv : 1.0 - Py.abs (MarketSignal.signal_strength signal - 0.5) <= 1).
  { unfold Py.abs.
    pose proof (Qabs_nonneg (MarketSignal.signal_strength signal - 0.5)). lra. }
  set (v := 1.0 - Py.abs (MarketSignal.signal_strength signal - 0.5)) in *.
  assert (Hbc : 0 <= b * c <= b) by (split; nra).
  destruct (Qlt_le_dec v 0) as [Hneg | Hpos]; nra.
Qed.

End TradeFacts.

(** ** Further behaviour of [process_signal] *)

Section EngineBehaviour.

Import PhoenixEngineDemo.

(** X2. The action of a returned trade is BUY or SELL.  HOLD, which the
    dataclass lists among the actions, is never produced. *)
Theorem process_signal_never_holds (self self' : t) (signal : MarketSignal.t)
    (now : string) (ts : TradingSignal.t) :
  process_signal self signal now = Py.ret (Some ts, self') ->
  (TradingSignal.action ts = "BUY"%string \/
   TradingSignal.action ts = "SELL"%string) /\
  TradingSignal.action ts <> "HOLD"%string.
Proof.
  intro H.
  destruct (process_signal_trade_inv _ _ _ _ _ H)
    as (c & m & _ & _ & _ & _ & -> & _).
  cbn. destruct (Py.gt (MarketSignal.signal_strength signal) 0.5);
    split; auto; discriminate.
Qed.

(** The conditions a traded signal of non-negative strength meets under a
    risk tolerance in [0, 1]. *)
Lemma strong_signal_inv (self self' : t)
    (signal : MarketSignal.t) (now : string) (ts : TradingSignal.t) :
  0 <= PhoenixConfig.risk_tolerance (config self) <= 1 ->
  0 <= MarketSignal.signal_strength signal ->
  process_signal self signal now = Py.ret (Some ts, self') ->
  0.7 < MarketSignal.signal_strength signal
        * PhoenixConfig.risk_tolerance (config self) /\
  0.7 < MarketSignal.signal_strength signal /\
  0 < MarketSignal.volume signal /\
  (MarketSignal.signal_strength signal <= 1 ->
   700000 < MarketSignal.volume signal) /\
  TradingSignal.action ts = "BUY"%string.
Proof.
  intros [Hr0 Hr1] Hs H.
  destruct (process_signal_trade_inv _ _ _ _ _ H)
    as (c & m & _ & Hc & Hgt & _ & -> & _).
  destruct (confidence_above_inv _ _ _ _ Hc Hgt)
    as (vf & Hvf1 & Hvfv & Hp & _ & _).
  set (s := MarketSignal.signal_strength signal) in *.
  set (r := PhoenixConfig.risk_tolerance (config self)) in *.
  set (v := MarketSignal.volume signal) in *.
  destruct (product_le_strength_risk vf s r 0.7 Hvf1 Hs Hr0 Hp) as [Hsr Hvf0];
    [lra|].
  assert (Hs7 : 0.7 < s) by nra.
  assert (Hv1 : v / 1000000.0 == v * (1 # 1000000)) by (field; discriminate).
  repeat split; try assumption.
  - lra.
  - intro Hs1.
    assert (Hvf7 : 0.7 < vf).
    { assert (s * r <= 1) by nra.
      assert (vf * s * r == vf * (s * r)) by ring.
      assert (vf * (s * r) <= vf * 1)
        by (rewrite !(Qmult_comm vf); apply Qmult_le_compat_r; lra).
      lra. }
    lra.
  - cbn. fold s.
    destruct (gt_cases s 0.5) as [[-> _] | [_ Hle]]; [reflexivity | lra].
Qed.

(** X3. Under a risk tolerance in [0, 1], a signal of non-negative strength is
    traded only when strength times risk tolerance, and so the strength
    itself, is above 0.7 and the volume is positive; the trade is then a
    BUY.  A strength of at most 1 needs a volume above 700,000 as well.
    SELL is out of reach of every signal with a non-negative strength. *)
Theorem trade_requires_strong_signal (self self' : t)
    (signal : MarketSignal.t) (now : string) (ts : TradingSignal.t) :
  0 <= PhoenixConfig.risk_tolerance (config self) <= 1 ->
  0 <= MarketSignal.signal_strength signal ->
  process_signal self signal now = Py.ret (Some ts, self') ->
  0.7 < MarketSignal.signal_strength signal
        * PhoenixConfig.risk_tolerance (config self) /\
  0.7 < MarketSignal.signal_strength signal /\
  0 < MarketSignal.volume signal /\
  (MarketSignal.signal_strength signal <= 1 ->
   700000 < MarketSignal.volume signal) /\
  TradingSignal.action ts = "BUY"%string.
Proof. apply strong_signal_inv. Qed.


(** Strength and amount of a trade under risk tolerance 0.85. *)
Lemma amount_window_inv (self self' : t) (signal : MarketSignal.t)
    (now : string) (ts : TradingSignal.t) :
  PhoenixConfig.risk_tolerance (config self) == 0.85 ->
  0 < PhoenixConfig.max_position_size (config self) ->
  0 <= MarketSignal.signal_strength signal <= 1 ->
  process_signal self signal now = Py.ret (Some ts, self') ->
  (14 # 17) < MarketSignal.signal_strength signal /\
  0.35 * PhoenixConfig.max_position_size (config self)
  < TradingSignal.amount ts
  < (161 # 340) * PhoenixConfig.max_position_size (config self).
Proof.
  intros Hr Hb [Hs0 Hs1] H.
  destruct (process_signal_trade_inv _ _ _ _ _ H)
    as (c & m & _ & Hc & Hgt & _ & -> & _).
  destruct (confidence_above_inv _ _ _ _ Hc Hgt)
    as (vf & Hvf1 & _ & Hp & Hcp & _).
  cbn. unfold calculate_position_size, Py.abs.
  set (s := MarketSignal.signal_strength signal) in *.
  set (r := PhoenixConfig.risk_tolerance (config self)) in *.
  set (b := PhoenixConfig.max_position_size (config self)) in *.
  destruct (product_le_strength_risk vf s r 0.7 Hvf1 Hs0) as [Hsr Hvf0];
    [lra | exact Hp | lra |].
  assert (Hc85 : c <= 0.85 * s).
  { assert (vf * s * r == vf * (s * r)) by ring.
    assert (vf * (s * r) <= 1 * (s * r))
      by (apply Qmult_le_compat_r; [lra | nra]).
    nra. }
  assert (Hs : (14 # 17) < s) by lra.
  rewrite (Qabs_pos (s - 0.5)) by lra.
  split; [exact Hs|].
  assert (Hlo : 0.35 < c * (1.0 - (s - 0.5))) by nra.
  assert (Hhi : c * (1.0 - (s - 0.5)) < 161 # 340).
  { assert (c * (1.0 - (s - 0.5)) <= 0.85 * s * (1.0 - (s - 0.5))) by nra.
    assert (0 < (s - (14 # 17)) * (s + (14 # 17) - 1.5)) by nra.
    nra. }
  split; nra.
Qed.

(** X5. On an engine with risk tolerance 0.85 (the value [__init__] sets) and a
    base size of at least 1, a trade made for a strength in [0, 1] has a
    strength above 0.82 and an amount strictly between 34% and 48% of the
    base size: the base size itself is never reached.  (In exact
    arithmetic the window is 35% to 161/340, see [amount_window_inv]; the
    margins here leave room for the rounding of floats.) *)
Theorem trade_amount_window (self self' : t) (signal : MarketSignal.t)
    (now : string) (ts : TradingSignal.t) :
  PhoenixConfig.risk_tolerance (config self) == 0.85 ->
  1 <= PhoenixConfig.max_position_size (config self) ->
  0 <= MarketSignal.signal_strength signal <= 1 ->
  process_signal self signal now = Py.ret (Some ts, self') ->
  0.82 < MarketSignal.signal_strength signal /\
  0.34 * PhoenixConfig.max_position_size (config self)
  < TradingSignal.amount ts
  < 0.48 * PhoenixConfig.max_position_size (config self).
Proof.
  intros Hr Hb Hs H.
  destruct (amount_window_inv self self' signal now ts Hr ltac:(lra) Hs H)
    as (Hs17 & Hlo & Hhi).
  repeat split; lra.
Qed.

End EngineBehaviour.

(** ** Further behaviour of sequences of calls *)

Section TraceBehaviour.

Import PhoenixEngineDemo.

(** A property of the engine kept by every admissible call is kept by
    every sequence of admissible calls, and the sequence runs through. *)
Lemma run_invariant (P : t -> Prop) (admissible : call -> Prop) :
  (forall self c, P self -> admissible c ->
                  exists self', step self c = Py.ret self' /\ P self') ->
  forall calls self,
    P self -> Forall admissible calls ->
    exists self', run self calls = Py.ret self' /\ P self'.
Proof.
  intros Hstep calls.
  induction calls as [ | c calls IH]; intros self HP Hall.
  - exists self. now split.
  - inversion Hall as [ | ? ? Hc Hcs]; subst.
    destruct (Hstep self c HP Hc) as (self1 & E1 & HP1).
    destruct (IH self1 HP1 Hcs) as (self2 & E2 & HP2).
    exists self2. split; [cbn; rewrite E1; exact E2 | exact HP2].
Qed.

(** A run splits at any point of the sequence. *)
Lemma run_app (calls1 calls2 : list call) (self : t) :
  run self (calls1 ++ calls2) = (self1 <- run self calls1 ;; run self1 calls2).
Proof.
  revert self. induction calls1 as [ | c calls1 IH]; intro self; cbn.
  - reflexivity.
  - destruct (step self c) as [e | self1]; cbn; [reflexivity | apply IH].
Qed.

(** What one call does to the parts of the engine outside the trade
    counters: nothing, but for the switch. *)
Lemma step_shape (self : t) (c : call) :
  exists self',
    step self c = Py.ret self' /\
    config self' = config self /\
    active self' = switch_after (active self) [c] /\
    PhoenixMetrics.avg_trade_duration (metrics self') =
    PhoenixMetrics.avg_trade_duration (metrics self) /\
    PhoenixMetrics.current_positions (metrics self') =
    PhoenixMetrics.current_positions (metrics self) /\
    (PhoenixMetrics.total_trades (metrics self)
     <= PhoenixMetrics.total_trades (metrics self')
     <= PhoenixMetrics.total_trades (metrics self)
        + count_process_signal [c])%Z /\
    (0 <= PhoenixMetrics.successful_trades (metrics self')
          - PhoenixMetrics.successful_trades (metrics self)
       <= PhoenixMetrics.total_trades (metrics self')
          - PhoenixMetrics.total_trades (metrics self))%Z.
Proof.
  destruct c as [ | | signal now | ]; cbn.
  - eexists; repeat split; cbn; lia.
  - eexists; repeat split; cbn; lia.
  - destruct (process_signal_cases self signal now)
      as (c & _ & [[_ E] | (_ & _ & m & Hm & E)]); rewrite E; cbn.
    + eexists; repeat split; lia.
    + rewrite update_metrics_eq in Hm. injection Hm as <-.
      eexists; repeat split; cbn; try lia;
        destruct (Py.gt c 0.8); lia.
  - eexists; repeat split; lia.
Qed.



(** X7. An inactive engine that is not activated along the way ignores
    everything: after a sequence of calls without activate the metrics
    are the metrics it started with, and it is still inactive. *)
Theorem run_without_activate (calls : list call) (self : t) :
  active self = false ->
  ~ In Activate calls ->
  exists self',
    run self calls = Py.ret self' /\
    metrics self' = metrics self /\
    active self' = false.
Proof.
  revert self. induction calls as [ | c calls IH]; intros self Hoff Hno.
  - exists self. now repeat split.
  - assert (Hno' : ~ In Activate calls) by (intro; apply Hno; now right).
    destruct c as [ | | signal now | ].
    + exfalso. apply Hno. now left.
    + destruct (IH (deactivate self) eq_refl Hno') as (self' & E & Hm & Ha).
      exists self'. now repeat split.
    + cbn. rewrite (process_signal_inactive_eq self signal now Hoff). cbn.
      apply (IH self Hoff Hno').
    + apply (IH self Hoff Hno').
Qed.

(** X8. The gains of an engine built by [__init__] from a non-negative capital,
    over any sequence of calls whose signals have a strength in [0, 1]:
    [total_pnl] stays between 0 and 2% of the base size (capital times
    0.1) for each successful trade counted. *)
Theorem run_total_pnl_bounds (capital : Q) (calls : list call) :
  0 <= capital ->
  (forall signal now, In (ProcessSignal signal now) calls ->
                      0 <= MarketSignal.signal_strength signal <= 1) ->
  exists self',
    run (__init__ capital) calls = Py.ret self' /\
    0 <= PhoenixMetrics.total_pnl (metrics self')
      <= 0.02 * (capital * 0.1)
         * inject_Z (PhoenixMetrics.successful_trades (metrics self')).
Proof.
  intros Hcap Hin.
  set (P := fun self : t =>
              config self = config (__init__ capital) /\
              0 <= PhoenixMetrics.total_pnl (metrics self)
                <= 0.02 * (capital * 0.1)
                   * inject_Z (PhoenixMetrics.successful_trades (metrics self))).
  set (admissible := fun c : call =>
              forall signal now, c = ProcessSignal signal now ->
                                 0 <= MarketSignal.signal_strength signal <= 1).
  destruct (run_invariant P admissible) with (calls := calls)
                                             (self := __init__ capital)
    as (self' & E & _ & Hpnl).
  - clear Hin. intros self c [Hcfg Hpnl] Hc.
    destruct c as [ | | signal now | ]; cbn;
      try (eexists; split; [reflexivity | split; assumption]).
    assert (Hb : 0 <= PhoenixConfig.max_position_size (config self))
      by (rewrite Hcfg; cbn; lra).
    specialize (Hc signal now eq_refl).
    destruct (process_signal_cases self signal now)
      as (c & Hcc & [[_ E] | (_ & Hg & m & Hm & E)]); rewrite E; cbn.
    + eexists; split; [reflexivity | split; assumption].
    + eexists; split; [reflexivity|]. split; [exact Hcfg|]. cbn.
      apply gt_true_iff in Hg.
      destruct (confidence_above_inv _ _ _ _ Hcc Hg) as (_ & _ & _ & _ & _ & Hc1).
      pose proof (position_size_nonneg self signal c Hb Hc ltac:(lra)) as Hlo.
      pose proof (position_size_le_base self signal c Hb ltac:(lra)) as Hhi.
      rewrite Hcfg in Hhi. cbn in Hhi.
      rewrite update_metrics_eq in Hm. injection Hm as <-. cbn.
      destruct (Py.gt c 0.8); [|exact Hpnl].
      rewrite inject_Z_plus.
      set (a := calculate_position_size self signal c) in *.
      change (inject_Z 1) with 1. clearbody a. clear E.
      set (n := inject_Z (PhoenixMetrics.successful_trades (metrics self))) in *.
      set (p := PhoenixMetrics.total_pnl (metrics self)) in *.
      assert (Hexp : 0.02 * (capital * 0.1) * (n + 1) ==
                     0.02 * (capital * 0.1) * n + 0.02 * (capital * 0.1))
        by ring.
      split; lra.
  - unfold P. split; [reflexivity|].
    cbn [__init__ metrics PhoenixMetrics.total_pnl
         PhoenixMetrics.successful_trades].
    change (inject_Z 0) with 0. lra.
  - apply Forall_forall. intros c Hc signal now ->. now apply (Hin signal now).
  - exists self'. now split.
Qed.

End TraceBehaviour.

(** ** The signal generator *)

Section GeneratorFacts.

Import PhoenixEngineDemo Demo.

Lemma choice_in {A : Type} (x : A) (xs : list A) (k : nat) :
  In (choice x xs k) (x :: xs).
Proof.
  unfold choice. apply nth_In.
  change (length (x :: xs)) with (S (length xs)).
  apply Nat.mod_upper_bound. discriminate.
Qed.

(** Every token of the sequence can be drawn. *)
Lemma choice_onto {A : Type} (x : A) (xs : list A) (y : A) :
  In y (x :: xs) -> exists k, choice x xs k = y.
Proof.
  intro H. destruct (In_nth _ _ x H) as (n & Hn & E).
  exists n. unfold choice.
  change (S (length xs)) with (length (x :: xs)).
  now rewrite Nat.mod_small.
Qed.

Lemma generated_signal_ranges (d : draws) :
  draws_ok d ->
  In (MarketSignal.token (generate_market_signal d)) tokens /\
  0.001 <= MarketSignal.price (generate_market_signal d) < 0.101 /\
  500000 <= MarketSignal.volume (generate_market_signal d) < 2500000 /\
  0 <= MarketSignal.signal_strength (generate_market_signal d) < 1.
Proof.
  intros ([Hp0 Hp1] & [Hv0 Hv1] & [Hs0 Hs1]).
  split; [apply choice_in|]. cbn. repeat split; lra.
Qed.

(** X9. With the three [random.random()] results in [0, 1), the generated
    signal has a token of the list, a price in [0.001, 0.101), a volume
    from 500000 to 2500000, a strength in [0, 1) and the timestamp read
    from the clock; the draw behind [random.choice] may be any number.
    (The upper end of the volume is included: rounding can reach it on
    floats.) *)
Theorem generate_market_signal_ranges (d : draws) :
  draws_ok d ->
  In (MarketSignal.token (generate_market_signal d)) tokens /\
  0.001 <= MarketSignal.price (generate_market_signal d) < 0.101 /\
  500000 <= MarketSignal.volume (generate_market_signal d) <= 2500000 /\
  0 <= MarketSignal.signal_strength (generate_market_signal d) < 1 /\
  MarketSignal.timestamp (generate_market_signal d) = utc_now d.
Proof.
  intro Hd.
  destruct (generated_signal_ranges d Hd) as (Ht & Hp & Hv & Hs).
  repeat split; try tauto; lra.
Qed.

(** What the demo engine (risk tolerance 0.85, positive base size) does
    with a generated signal: the final clamp of the score is idle and the
    confidence stays under 0.85; a trade, when there is one, is a BUY of a
    token of the list for a strength above 14/17 and a volume above
    823,529 (14/17 of the reference volume), with an amount strictly
    between 35% and 161/340 of the base size. *)
Lemma generated_signal_trade_inv (self self' : t) (d : draws) (now : string)
    (ts : TradingSignal.t) :
  PhoenixConfig.risk_tolerance (config self) == 0.85 ->
  0 < PhoenixConfig.max_position_size (config self) ->
  draws_ok d ->
  process_signal self (generate_market_signal d) now = Py.ret (Some ts, self') ->
  TradingSignal.action ts = "BUY"%string /\
  In (TradingSignal.token ts) tokens /\
  0.001 <= TradingSignal.price ts < 0.101 /\
  0.7 < TradingSignal.confidence ts < 0.85 /\
  (14 # 17) < u_strength d /\
  (14 # 17) * 1000000 < MarketSignal.volume (generate_market_signal d) /\
  0.35 * PhoenixConfig.max_position_size (config self)
  < TradingSignal.amount ts
  < (161 # 340) * PhoenixConfig.max_position_size (config self).
Proof.
  intros Hr Hb Hd H.
  destruct (generated_signal_ranges d Hd) as (Ht & Hp & Hv & Hs).
  set (signal := generate_market_signal d) in *.
  assert (Hs' : 0 <= MarketSignal.signal_strength signal <= 1) by lra.
  destruct (amount_window_inv self self' signal now ts Hr Hb Hs' H)
    as [Hs17 Hamt].
  destruct (strong_signal_inv self self' signal now ts) as (_ & _ & _ & _ & Hbuy);
    [lra | lra | exact H |].
  destruct (process_signal_trade_inv _ _ _ _ _ H)
    as (c & m & _ & Hc & Hgt & _ & Hts & _).
  destruct (confidence_above_inv _ _ _ _ Hc Hgt)
    as (vf & Hvf1 & Hvfv & Hpr & Hcp & Hc1).
  assert (Hfields : TradingSignal.token ts = MarketSignal.token signal /\
                    TradingSignal.price ts = MarketSignal.price signal /\
                    TradingSignal.confidence ts = c)
    by (rewrite Hts; now repeat split).
  destruct Hfields as (-> & -> & ->).
  set (s := MarketSignal.signal_strength signal) in *.
  set (r := PhoenixConfig.risk_tolerance (config self)) in *.
  destruct (product_le_strength_risk vf s r 0.7 Hvf1) as [Hsr Hvf0];
    [lra | lra | exact Hpr | lra |].
  assert (Hvs : vf * s * r == 0.85 * (vf * s)) by (rewrite Hr; ring).
  assert (Hvfs : vf * s <= vf) by nra.
  assert (Hvf17 : (14 # 17) < vf) by lra.
  assert (Hdiv : MarketSignal.volume signal / 1000000.0 ==
                 MarketSignal.volume signal * (1 # 1000000))
    by (field; discriminate).
  repeat split; try assumption; try tauto; try lra.
  assert (vf * s < 1) by nra. lra.
Qed.

End GeneratorFacts.

(** X10. The demo engine never sells: a generated signal that is traded is
    bought.  With risk tolerance 0.85, a trade made for a generated signal
    is a BUY of a listed token at the signal's price, in [0.001, 0.101),
    with a confidence strictly between 0.7 and 0.85, for a strength above
    0.82 and a volume above 820000. *)
Theorem generated_signal_trade (self self' : PhoenixEngineDemo.t)
    (d : Demo.draws) (now : string) (ts : TradingSignal.t) :
  PhoenixConfig.risk_tolerance (PhoenixEngineDemo.config self) == 0.85 ->
  Demo.draws_ok d ->
  PhoenixEngineDemo.process_signal self (Demo.generate_market_signal d) now
  = Py.ret (Some ts, self') ->
  TradingSignal.action ts = "BUY"%string /\
  In (TradingSignal.token ts) Demo.tokens /\
  0.001 <= TradingSignal.price ts < 0.101 /\
  0.7 < TradingSignal.confidence ts < 0.85 /\
  0.82 < Demo.u_strength d /\
  820000 < MarketSignal.volume (Demo.generate_market_signal d).
Proof.
  intros Hr Hd H.
  destruct (generated_signal_ranges d Hd) as (Ht & Hp & Hv & Hs).
  set (signal := Demo.generate_market_signal d) in *.
  destruct (strong_signal_inv self self' signal now ts)
    as (Hsr & _ & _ & _ & Hbuy); [lra | lra | exact H |].
  destruct (process_signal_trade_inv _ _ _ _ _ H)
    as (c & m & _ & Hc & Hgt & _ & Hts & _).
  destruct (confidence_above_inv _ _ _ _ Hc Hgt)
    as (vf & Hvf1 & Hvfv & Hpr & Hcp & Hc1).
  assert (Hfields : TradingSignal.token ts = MarketSignal.token signal /\
                    TradingSignal.price ts = MarketSignal.price signal /\
                    TradingSignal.confidence ts = c)
    by (rewrite Hts; now repeat split).
  destruct Hfields as (-> & -> & ->).
  change (Demo.u_strength d) with (MarketSignal.signal_strength signal).
  set (s := MarketSignal.signal_strength signal) in *.
  set (r := PhoenixConfig.risk_tolerance (PhoenixEngineDemo.config self)) in *.
  destruct (product_le_strength_risk vf s r 0.7 Hvf1) as [_ Hvf0];
    [lra | lra | exact Hpr | lra |].
  assert (Hvs : vf * s * r == 0.85 * (vf * s)) by (rewrite Hr; ring).
  assert (Hvfs : vf * s <= vf) by nra.
  assert (Hvfs1 : vf * s < 1) by nra.
  assert (Hsr' : s * r == 0.85 * s) by (rewrite Hr; ring).
  assert (Hdiv : MarketSignal.volume signal / 1000000.0 ==
                 MarketSignal.volume signal * (1 # 1000000))
    by (field; discriminate).
  repeat split; try assumption; try tauto; lra.
Qed.

(** ** The timed loop *)

Section LoopFacts.

Import PhoenixEngineDemo Demo.

Lemma trades_app (out1 out2 : list line) :
  trades (out1 ++ out2) = trades out1 ++ trades out2.
Proof.
  induction out1 as [ | [ts | n w p] out1 IH]; cbn; [reflexivity | | exact IH].
  now rewrite IH.
Qed.

Lemma pass_lines_eq (out : list line) (r : option TradingSignal.t) :
  match r with
  | Some ts => out ++ [TradeLine ts]
  | None => out
  end = out ++ pass_lines r.
Proof. destruct r; cbn; [reflexivity | now rewrite app_nil_r]. Qed.

(** The loop under a property [I] of the engine and of the lines printed so
    far, kept by the call of a pass and by the metrics line: when a
    reading stops the loop, [main] returns, the property holds of what it
    returns, and the engine has gone through the calls of the passes. *)
Lemma loop_invariant (start_time : Q) (tick_ok : tick -> Prop)
    (I : t -> list line -> Prop) :
  (forall phoenix out k r phoenix',
      I phoenix out -> tick_ok k ->
      process_signal phoenix (generate_market_signal (rnd k)) (trade_now k)
      = Py.ret (r, phoenix') ->
      I phoenix' (out ++ pass_lines r)) ->
  (forall phoenix out,
      I phoenix out ->
      I phoenix
        (out ++ [MetricsLine
                   (PhoenixMetrics.total_trades (get_metrics phoenix))
                   (PhoenixMetrics.win_rate (get_metrics phoenix))
                   (PhoenixMetrics.total_pnl (get_metrics phoenix))])) ->
  forall env last_metrics_time phoenix out,
    I phoenix out ->
    Forall tick_ok (passes start_time env) ->
    Exists (stops start_time) env ->
    exists e out',
      loop start_time last_metrics_time phoenix out env
      = Finished (deactivate e) out' /\
      I e out' /\
      run phoenix (map tick_call (passes start_time env)) = Py.ret e.
Proof.
  intros Hcall Hline env.
  induction env as [ | k env IH]; intros last phoenix out HI Hok Hstop.
  - inversion Hstop.
  - cbn in Hok |- *. unfold stops in Hstop.
    destruct (Py.lt (clock_test k - start_time) demo_duration) eqn:Htest.
    + assert (Hstop' : Exists (stops start_time) env).
      { inversion Hstop as [? ? H | ? ? H]; subst; [|exact H].
        congruence. }
      inversion Hok as [ | ? ? Hk Hok']; subst.
      destruct (process_signal_cases phoenix (generate_market_signal (rnd k))
                  (trade_now k)) as (c & _ & Hcases).
      assert (Hret : exists r phoenix',
                 process_signal phoenix (generate_market_signal (rnd k))
                   (trade_now k) = Py.ret (r, phoenix'))
        by (destruct Hcases as [[_ E] | (_ & _ & m & _ & E)]; eauto).
      destruct Hret as (r & phoenix' & E).
      pose proof (Hcall _ _ _ _ _ HI Hk E) as HI'.
      cbn. rewrite E. cbn. rewrite pass_lines_eq.
      destruct (ge (clock_current k - last) 10).
      * apply (IH _ _ _ (Hline _ _ HI') Hok' Hstop').
      * apply (IH _ _ _ HI' Hok' Hstop').
    + exists phoenix, out. repeat split; assumption.
Qed.

(** One call: the switch and the configuration stay, and [total_trades]
    grows by one exactly when a trade is returned. *)
Lemma process_signal_count (self self' : t) (signal : MarketSignal.t)
    (now : string) (r : option TradingSignal.t) :
  process_signal self signal now = Py.ret (r, self') ->
  config self' = config self /\
  active self' = active self /\
  PhoenixMetrics.total_trades (metrics self') =
  (PhoenixMetrics.total_trades (metrics self)
   + Z.of_nat (length (pass_lines r)))%Z.
Proof.
  intro H.
  destruct (process_signal_cases self signal now)
    as (c & _ & [[_ E] | (_ & _ & m & Hm & E)]);
    rewrite E in H; injection H as <- <-.
  - cbn. repeat split; try lia.
  - rewrite update_metrics_eq in Hm. injection Hm as <-.
    cbn. repeat split; try lia.
Qed.

(** The passes a paced clock allows: with [n] passes left before the
    deadline, at most [n] readings pass the loop test. *)
Lemma paced_passes (start_time : Q) (env : list tick) :
  forall (n : nat) (t : Q),
    paced t env ->
    demo_duration - 2 * inject_Z (Z.of_nat n) <= t - start_time ->
    (length (passes start_time env) <= n)%nat.
Proof.
  unfold demo_duration.
  induction env as [ | k env IH]; intros n t Hp Ht; cbn; [lia|].
  destruct Hp as [Hk Hp].
  destruct (gt_cases demo_duration (clock_test k - start_time))
    as [[E Hlt] | [E Hle]]; unfold Py.lt, demo_duration in *; rewrite E;
    [|cbn; lia].
  destruct n as [ | n].
  - change (inject_Z (Z.of_nat 0)) with 0 in Ht. lra.
  - cbn [length]. apply le_n_S. apply (IH n (clock_test k + 2) Hp).
    rewrite Nat2Z.inj_succ in Ht. unfold Z.succ in Ht.
    rewrite inject_Z_plus in Ht. change (inject_Z 1) with 1 in Ht. lra.
Qed.

(** On a paced clock the sixteenth reading, at the latest, stops the
    loop. *)
Lemma paced_stops (start_time : Q) (env : list tick) :
  forall (n : nat) (t : Q),
    paced t env ->
    demo_duration - 2 * inject_Z (Z.of_nat n) <= t - start_time ->
    (n < length env)%nat ->
    Exists (stops start_time) env.
Proof.
  unfold demo_duration.
  induction env as [ | k env IH]; intros n t Hp Ht Hlen; cbn in Hlen; [lia|].
  destruct Hp as [Hk Hp].
  destruct (gt_cases demo_duration (clock_test k - start_time))
    as [[E Hlt] | [E Hle]].
  - apply Exists_cons_tl.
    destruct n as [ | n];
      [change (inject_Z (Z.of_nat 0)) with 0 in Ht;
       unfold demo_duration in Hlt; lra|].
    apply (IH n (clock_test k + 2) Hp); [|lia].
    rewrite Nat2Z.inj_succ in Ht. unfold Z.succ in Ht.
    rewrite inject_Z_plus in Ht. change (inject_Z 1) with 1 in Ht. lra.
  - apply Exists_cons_hd. exact E.
Qed.

End LoopFacts.

(** ** The driver [main] *)

Section MainFacts.

Import PhoenixEngineDemo Demo.

Lemma count_tick_calls (ticks : list tick) :
  count_process_signal (map tick_call ticks) = Z.of_nat (length ticks).
Proof.
  induction ticks as [ | k ticks IH]; [reflexivity|].
  cbn [map tick_call count_process_signal length].
  rewrite IH. lia.
Qed.

Lemma run_total_trades_le (calls : list call) :
  forall self self' : t,
    run self calls = Py.ret self' ->
    (PhoenixMetrics.total_trades (metrics self')
     <= PhoenixMetrics.total_trades (metrics self)
        + count_process_signal calls)%Z.
Proof.
  induction calls as [ | c calls IH]; intros self self' H.
  - injection H as <-. cbn. lia.
  - destruct (step_shape self c) as (self1 & E1 & _ & _ & _ & _ & Htot & _).
    cbn in H. rewrite E1 in H. cbn in H.
    specialize (IH self1 self' H).
    assert (count_process_signal (c :: calls) =
            (count_process_signal [c] + count_process_signal calls)%Z)
      by (destruct c; cbn; lia).
    lia.
Qed.

Lemma lines_consistent_app (out1 out2 : list line) :
  forall seen : Z,
    lines_consistent seen out1 ->
    lines_consistent (seen + Z.of_nat (length (trades out1))) out2 ->
    lines_consistent seen (out1 ++ out2).
Proof.
  induction out1 as [ | [ts | n w p] out1 IH]; intros seen H1 H2.
  - cbn in H2 |- *. now rewrite Z.add_0_r in H2.
  - cbn in H1 |- *. apply IH; [exact H1|].
    cbn [trades length] in H2.
    replace (seen + 1 + Z.of_nat (length (trades out1)))%Z
      with (seen + Z.of_nat (S (length (trades out1))))%Z by lia.
    exact H2.
  - cbn in H1 |- *. destruct H1 as (Hn & Hw & H1).
    repeat split; try assumption; try tauto. now apply IH.
Qed.

(** The state [main] returns when a reading stops its loop, under a
    property kept by the passes. *)
Lemma main_invariant (start_time : Q) (env : list tick)
    (tick_ok : tick -> Prop) (I : t -> list line -> Prop) :
  (forall phoenix out k r phoenix',
      I phoenix out -> tick_ok k ->
      process_signal phoenix (generate_market_signal (rnd k)) (trade_now k)
      = Py.ret (r, phoenix') ->
      I phoenix' (out ++ pass_lines r)) ->
  (forall phoenix out,
      I phoenix out ->
      I phoenix
        (out ++ [MetricsLine
                   (PhoenixMetrics.total_trades (get_metrics phoenix))
                   (PhoenixMetrics.win_rate (get_metrics phoenix))
                   (PhoenixMetrics.total_pnl (get_metrics phoenix))])) ->
  I (activate (__init__ 1000.0)) [] ->
  Forall tick_ok (passes start_time env) ->
  Exists (stops start_time) env ->
  exists e out,
    main start_time env = Finished (deactivate e) out /\
    I e out /\
    run (__init__ 1000.0)
        (Activate :: map tick_call (passes start_time env) ++ [Deactivate])
    = Py.ret (deactivate e).
Proof.
  intros Hcall Hline H0 Hok Hstop.
  destruct (loop_invariant start_time tick_ok I Hcall Hline env start_time
              (activate (__init__ 1000.0)) [] H0 Hok Hstop)
    as (e & out & E & HI & Hrun).
  exists e, out. split; [exact E|]. split; [exact HI|].
  change (run (activate (__init__ 1000.0))
              (map tick_call (passes start_time env) ++ [Deactivate])
          = Py.ret (deactivate e)).
  rewrite run_app, Hrun. reflexivity.
Qed.

(** The engine and the trade count of [main]. *)
Lemma main_engine (start_time : Q) (env : list tick) :
  Exists (stops start_time) env ->
  exists e out,
    main start_time env = Finished e out /\
    run (__init__ 1000.0)
        (Activate :: map tick_call (passes start_time env) ++ [Deactivate])
    = Py.ret e /\
    active e = false /\
    config e = config (__init__ 1000.0) /\
    metrics_ok (metrics e) /\
    PhoenixMetrics.total_trades (metrics e) = Z.of_nat (length (trades out)) /\
    (length (trades out) <= length (passes start_time env))%nat.
Proof.
  intro Hstop.
  set (I := fun (phoenix : t) (out : list line) =>
              config phoenix = config (__init__ 1000.0) /\
              metrics_ok (metrics phoenix) /\
              PhoenixMetrics.total_trades (metrics phoenix)
              = Z.of_nat (length (trades out))).
  destruct (main_invariant start_time env (fun _ => True) I)
    as (e & out & E & (Hcfg & Hok & Hcount) & Hrun); try assumption.
  - intros phoenix out k r phoenix' (Hcfg & Hok & Hcount) _ Hps.
    destruct (process_signal_count _ _ _ _ _ Hps) as (Hc & _ & Ht).
    split; [congruence|]. split.
    + destruct (step_metrics_ok phoenix (tick_call k) Hok) as (e1 & E1 & Hok1).
      cbn in E1. rewrite Hps in E1. injection E1 as <-. exact Hok1.
    + rewrite trades_app, length_app, Nat2Z.inj_add, Ht, Hcount.
      now destruct r.
  - intros phoenix out (Hcfg & Hok & Hcount).
    split; [exact Hcfg|]. split; [exact Hok|].
    rewrite trades_app, length_app. cbn. now rewrite Nat.add_0_r.
  - split; [reflexivity|]. split; [apply init_metrics_ok | reflexivity].
  - apply Forall_forall. trivial.
  - exists (deactivate e), out.
    do 6 (split; [first [assumption | reflexivity]|]).
    pose proof (run_total_trades_le _ _ _ Hrun) as Hle.
    cbn [count_process_signal] in Hle.
    assert (Hsplit : forall l1 l2,
               count_process_signal (l1 ++ l2) =
               (count_process_signal l1 + count_process_signal l2)%Z).
    { induction l1 as [ | c l1 IH1]; intro l2; [reflexivity|].
      cbn [app count_process_signal]. rewrite IH1. destruct c; lia. }
    rewrite Hsplit, count_tick_calls in Hle. cbn in Hle.
    change (PhoenixMetrics.total_trades (metrics (deactivate e)))
      with (PhoenixMetrics.total_trades (metrics e)) in Hle.
    lia.
Qed.

End MainFacts.

Section MainBehaviour.

Import PhoenixEngineDemo Demo.

(** X11. When one of the readings of the wall clock fails the loop test, [main]
    returns.  The engine it leaves is the one reached from
    [PhoenixEngineDemo(1000.0)] by activate, one process_signal per pass
    on the generated signal, and deactivate: it is inactive, its
    configuration is the initial one, its metrics satisfy the invariant,
    and its [total_trades] is the number of trade lines printed, which
    is at most the number of passes. *)
Theorem main_finishes (start_time : Q) (env : list tick) :
  Exists (stops start_time) env ->
  exists e out,
    main start_time env = Finished e out /\
    run (__init__ 1000.0)
        (Activate :: map tick_call (passes start_time env) ++ [Deactivate])
    = Py.ret e /\
    active e = false /\
    config e = config (__init__ 1000.0) /\
    metrics_ok (metrics e) /\
    PhoenixMetrics.total_trades (metrics e) = Z.of_nat (length (trades out)) /\
    (length (trades out) <= length (passes start_time env))%nat.
Proof. apply main_engine. Qed.

(** X12. With every [random.random()] result of the passes in [0, 1), every
    trade [main] prints is a BUY of a listed token at a price in
    [0.001, 0.101), scored strictly between 0.7 and 0.85, for an amount
    strictly between 35 and 805/17; no SELL is printed, and the
    [total_pnl] the engine ends with is not negative. *)
Theorem main_trades_are_buys (start_time : Q) (env : list tick) :
  Exists (stops start_time) env ->
  (forall k, In k (passes start_time env) -> draws_ok (rnd k)) ->
  exists e out,
    main start_time env = Finished e out /\
    Forall demo_trade (trades out) /\
    0 <= PhoenixMetrics.total_pnl (metrics e).
Proof.
  intros Hstop Hdraws.
  set (I := fun (phoenix : t) (out : list line) =>
              config phoenix = config (__init__ 1000.0) /\
              Forall demo_trade (trades out) /\
              0 <= PhoenixMetrics.total_pnl (metrics phoenix)).
  destruct (main_invariant start_time env (fun k => draws_ok (rnd k)) I)
    as (e & out & E & (_ & Hall & Hpnl) & _); try assumption.
  - intros phoenix out k r phoenix' (Hcfg & Hall & Hpnl) Hk Hps.
    destruct (process_signal_count _ _ _ _ _ Hps) as (Hc & _ & _).
    destruct (generated_signal_ranges _ Hk) as (_ & _ & _ & Hs).
    split; [congruence|]. split.
    + rewrite trades_app. apply Forall_app. split; [exact Hall|].
      destruct r as [ts | ]; [|constructor].
      cbn. constructor; [|constructor].
      destruct (generated_signal_trade_inv phoenix phoenix' (rnd k)
                  (trade_now k) ts)
        as (Hbuy & Htok & Hprice & Hconf & _ & _ & Hamt);
        try assumption; try (rewrite Hcfg; cbn; lra).
      rewrite Hcfg in Hamt. cbn in Hamt.
      unfold demo_trade. repeat split; try assumption; try tauto; lra.
    + destruct (process_signal_pnl phoenix (generate_market_signal (rnd k))
                  (trade_now k)) as (r1 & e1 & E1 & Hle);
        [rewrite Hcfg; cbn; lra | lra |].
      rewrite E1 in Hps. injection Hps as _ <-. lra.
  - intros phoenix out (Hcfg & Hall & Hpnl).
    split; [exact Hcfg|]. split; [|exact Hpnl].
    rewrite trades_app. apply Forall_app. split; [exact Hall | constructor].
  - split; [reflexivity|]. split; [constructor | cbn; lra].
  - apply Forall_forall. exact Hdraws.
  - exists (deactivate e), out. now repeat split.
Qed.

(** X13. On a wall clock that never runs backwards and on which each
    [asyncio.sleep(2)] takes two seconds or more, sixteen rounds of
    readings are enough for [main] to return: the loop makes at most 15
    passes, so the demo prints at most 15 trades and ends with
    [total_trades] at most 15. *)
Theorem main_at_most_15_passes (start_time : Q) (env : list tick) :
  paced start_time env ->
  (16 <= length env)%nat ->
  exists e out,
    main start_time env = Finished e out /\
    (length (passes start_time env) <= 15)%nat /\
    (length (trades out) <= 15)%nat /\
    (PhoenixMetrics.total_trades (metrics e) <= 15)%Z.
Proof.
  intros Hpaced Hlen.
  assert (Hzero : demo_duration - 2 * inject_Z (Z.of_nat 15)
                  <= start_time - start_time)
    by (unfold demo_duration; change (inject_Z (Z.of_nat 15)) with 15; lra).
  pose proof (paced_passes start_time env 15 start_time Hpaced Hzero) as Hp.
  assert (Hstop : Exists (stops start_time) env)
    by (apply (paced_stops start_time env 15 start_time Hpaced Hzero); lia).
  destruct (main_engine start_time env Hstop)
    as (e & out & E & _ & _ & _ & _ & Hcount & Hle).
  exists e, out. repeat split; [exact E | exact Hp | lia | lia].
Qed.

(** X14. The lines [main] prints agree with the engine: each metrics line shows
    as total the number of trade lines printed before it, and a win rate
    in [0, 1]. *)
Theorem main_lines_consistent (start_time : Q) (env : list tick) :
  Exists (stops start_time) env ->
  exists e out,
    main start_time env = Finished e out /\
    lines_consistent 0 out.
Proof.
  intro Hstop.
  set (Inv := fun (phoenix : t) (out : list line) =>
              metrics_ok (metrics phoenix) /\
              PhoenixMetrics.total_trades (metrics phoenix)
              = Z.of_nat (length (trades out)) /\
              lines_consistent 0 out).
  destruct (main_invariant start_time env (fun _ => True) Inv)
    as (e & out & E & (_ & _ & Hlines) & _); try assumption.
  - intros phoenix out k r phoenix' (Hok & Hcount & Hlines) _ Hps.
    destruct (process_signal_count _ _ _ _ _ Hps) as (_ & _ & Ht).
    split; [|split].
    + destruct (step_metrics_ok phoenix (tick_call k) Hok) as (e1 & E1 & Hok1).
      cbn in E1. rewrite Hps in E1. injection E1 as <-. exact Hok1.
    + rewrite trades_app, length_app, Nat2Z.inj_add, Ht, Hcount.
      now destruct r.
    + apply lines_consistent_app; [exact Hlines|].
      destruct r; cbn; trivial.
  - intros phoenix out (Hok & Hcount & Hlines).
    split; [exact Hok|]. split.
    + rewrite trades_app, length_app. cbn. now rewrite Nat.add_0_r.
    + apply lines_consistent_app; [exact Hlines|].
      cbn. unfold get_metrics.
      split; [lia|]. split; [apply Hok | trivial].
  - split; [apply init_metrics_ok|]. split; [reflexivity | cbn; trivial].
  - apply Forall_forall. trivial.
  - exists (deactivate e), out. now split.
Qed.

End MainBehaviour.

(** ** The further theorems at concrete inputs *)

Section BehaviourWitnesses.

Import PhoenixEngineDemo Demo.

Lemma process_signal_never_holds_witness :
  exists ts self',
    process_signal phoenix signal_A now0 = Py.ret (Some ts, self') /\
    (TradingSignal.action ts = "BUY"%string \/
     TradingSignal.action ts = "SELL"%string) /\
    TradingSignal.action ts <> "HOLD"%string.
Proof.
  eexists _, _. split.
  - vm_compute. reflexivity.
  - eapply (process_signal_never_holds phoenix _ signal_A now0).
    vm_compute. reflexivity.
Defined.

Lemma trade_requires_strong_signal_witness :
  exists ts self',
    process_signal phoenix signal_A now0 = Py.ret (Some ts, self') /\
    0.7 < MarketSignal.signal_strength signal_A
          * PhoenixConfig.risk_tolerance (config phoenix) /\
    0.7 < MarketSignal.signal_strength signal_A /\
    0 < MarketSignal.volume signal_A /\
    (MarketSignal.signal_strength signal_A <= 1 ->
     700000 < MarketSignal.volume signal_A) /\
    TradingSignal.action ts = "BUY"%string.
Proof.
  eexists _, _. split.
  - vm_compute. reflexivity.
  - eapply (trade_requires_strong_signal phoenix _ signal_A now0).
    + cbn; lra.
    + cbn; lra.
    + vm_compute. reflexivity.
Defined.

Lemma trade_amount_window_witness :
  exists ts self',
    process_signal phoenix signal_A now0 = Py.ret (Some ts, self') /\
    0.82 < MarketSignal.signal_strength signal_A /\
    0.34 * PhoenixConfig.max_position_size (config phoenix)
    < TradingSignal.amount ts
    < 0.48 * PhoenixConfig.max_position_size (config phoenix).
Proof.
  eexists _, _. split.
  - vm_compute. reflexivity.
  - eapply (trade_amount_window phoenix _ signal_A now0).
    + reflexivity.
    + cbn; lra.
    + cbn; lra.
    + vm_compute. reflexivity.
Defined.

Lemma run_without_activate_witness :
  exists self',
    run (__init__ 1000.0)
        [ProcessSignal signal_A now0; GetMetrics; Deactivate;
         ProcessSignal signal_C now0]
    = Py.ret self' /\
    metrics self' = metrics (__init__ 1000.0) /\
    active self' = false.
Proof.
  apply (run_without_activate
           [ProcessSignal signal_A now0; GetMetrics; Deactivate;
            ProcessSignal signal_C now0]
           (__init__ 1000.0)).
  - reflexivity.
  - intros [H | [H | [H | [H | []]]]]; discriminate H.
Defined.

Lemma run_total_pnl_bounds_witness :
  exists self',
    run (__init__ 1000.0)
        [Activate; ProcessSignal signal_C now0; ProcessSignal signal_A now0]
    = Py.ret self' /\
    0 <= PhoenixMetrics.total_pnl (metrics self')
      <= 0.02 * (1000.0 * 0.1)
         * inject_Z (PhoenixMetrics.successful_trades (metrics self')).
Proof.
  apply (run_total_pnl_bounds 1000.0
           [Activate; ProcessSignal signal_C now0; ProcessSignal signal_A now0]).
  - lra.
  - intros signal now [H | [H | [H | []]]];
      [discriminate H | | ]; injection H as <- _; cbn; lra.
Defined.

Lemma draws_strong_ok : draws_ok draws_strong.
Proof. unfold draws_ok, unit_interval; cbn. repeat split; lra. Defined.

Lemma draws_weak_ok : draws_ok draws_weak.
Proof. unfold draws_ok, unit_interval; cbn. repeat split; lra. Defined.

Lemma generate_market_signal_ranges_witness :
  In (MarketSignal.token (generate_market_signal draws_strong)) tokens /\
  0.001 <= MarketSignal.price (generate_market_signal draws_strong) < 0.101 /\
  500000 <= MarketSignal.volume (generate_market_signal draws_strong)
         <= 2500000 /\
  0 <= MarketSignal.signal_strength (generate_market_signal draws_strong) < 1 /\
  MarketSignal.timestamp (generate_market_signal draws_strong)
  = utc_now draws_strong.
Proof.
  apply (generate_market_signal_ranges draws_strong). exact draws_strong_ok.
Defined.

Lemma generated_signal_trade_witness :
  exists ts self',
    process_signal phoenix (generate_market_signal draws_strong) now0
    = Py.ret (Some ts, self') /\
    TradingSignal.action ts = "BUY"%string /\
    In (TradingSignal.token ts) tokens /\
    0.001 <= TradingSignal.price ts < 0.101 /\
    0.7 < TradingSignal.confidence ts < 0.85 /\
    0.82 < u_strength draws_strong /\
    820000 < MarketSignal.volume (generate_market_signal draws_strong).
Proof.
  eexists _, _. split.
  - vm_compute. reflexivity.
  - eapply (generated_signal_trade phoenix _ draws_strong now0).
    + reflexivity.
    + exact draws_strong_ok.
    + vm_compute. reflexivity.
Defined.

Lemma readings_4_stop : Exists (stops 100) readings_4.
Proof. do 3 apply Exists_cons_tl. apply Exists_cons_hd. reflexivity. Defined.

Lemma main_finishes_witness :
  exists e out,
    main 100 readings_4 = Finished e out /\
    run (__init__ 1000.0)
        (Activate :: map tick_call (passes 100 readings_4) ++ [Deactivate])
    = Py.ret e /\
    active e = false /\
    config e = config (__init__ 1000.0) /\
    metrics_ok (metrics e) /\
    PhoenixMetrics.total_trades (metrics e) = Z.of_nat (length (trades out)) /\
    (length (trades out) <= length (passes 100 readings_4))%nat.
Proof. apply (main_finishes 100 readings_4). exact readings_4_stop. Defined.

Lemma main_trades_are_buys_witness :
  exists e out,
    main 100 readings_4 = Finished e out /\
    Forall demo_trade (trades out) /\
    0 <= PhoenixMetrics.total_pnl (metrics e).
Proof.
  apply (main_trades_are_buys 100 readings_4).
  - exact readings_4_stop.
  - intros k [<- | [<- | [<- | []]]];
      first [exact draws_strong_ok | exact draws_weak_ok].
Defined.

Lemma main_at_most_15_passes_witness :
  exists e out,
    main 100 (readings_every_2s 16 100) = Finished e out /\
    (length (passes 100 (readings_every_2s 16 100)) <= 15)%nat /\
    (length (trades out) <= 15)%nat /\
    (PhoenixMetrics.total_trades (metrics e) <= 15)%Z.
Proof.
  apply (main_at_most_15_passes 100 (readings_every_2s 16 100)).
  - cbn. repeat split; lra.
  - cbn. lia.
Defined.

Lemma main_lines_consistent_witness :
  exists e out,
    main 100 readings_4 = Finished e out /\ lines_consistent 0 out.
Proof.
  apply (main_lines_consistent 100 readings_4). exact readings_4_stop.
Defined.

End BehaviourWitnesses.

(** ** Runs of the driver *)

Section DriverRuns.

Import PhoenixEngineDemo Demo.

(** Three passes, two of them with a strong signal: two trade lines, one
    metrics line showing 2 trades, and an inactive engine with two
    trades. *)
Example main_three_passes :
  exists e ts1 ts2 w p,
    main 100 readings_4
    = Finished e [TradeLine ts1; TradeLine ts2; MetricsLine 2 w p] /\
    active e = false /\
    PhoenixMetrics.total_trades (metrics e) = 2%Z /\
    PhoenixMetrics.successful_trades (metrics e) = 2%Z /\
    w == 1.
Proof.
  eexists _, _, _, _, _. split; [vm_compute; reflexivity|].
  vm_compute. repeat split; reflexivity.
Qed.

(** The bound of 15 trades is reached: readings every two seconds, each
    with a strong signal, give 15 passes and 15 trades. *)
Example main_fifteen_trades :
  exists e out,
    main 100 (readings_every_2s 16 100) = Finished e out /\
    length (passes 100 (readings_every_2s 16 100)) = 15%nat /\
    length (trades out) = 15%nat /\
    PhoenixMetrics.total_trades (metrics e) = 15%Z.
Proof.
  eexists _, _. split; [vm_compute; reflexivity|].
  vm_compute. repeat split; reflexivity.
Qed.

(** Readings that end before the deadline leave the loop running. *)
Example main_readings_run_out :
  main 100 (readings_every_2s 10 100) = Exhausted.
Proof. vm_compute. reflexivity. Qed.

End DriverRuns.

(** ** What [process_signal] can raise *)

Section RuntimeFacts.

Import PhoenixEngineDemo.

Lemma float_bound_above_1 : 1 < Runtime.float_bound.
Proof. vm_compute. reflexivity. Qed.

Lemma fits_float_iff (x : Q) :
  Runtime.fits_float x = true <-> Qabs x < Runtime.float_bound.
Proof.
  unfold Runtime.fits_float. rewrite negb_true_iff.
  split; intro H.
  - apply Qnot_le_lt. intro Hle. apply Qle_bool_iff in Hle. congruence.
  - destruct (Qle_bool Runtime.float_bound (Qabs x)) eqn:E; [|reflexivity].
    apply Qle_bool_iff in E. exfalso. apply (Qlt_not_le _ _ H E).
Qed.

Lemma fits_float_unit (x : Q) : 0 <= x <= 1 -> Runtime.fits_float x = true.
Proof.
  intros [H0 H1]. apply fits_float_iff.
  rewrite Qabs_pos by exact H0.
  apply Qle_lt_trans with 1; [exact H1 | exact float_bound_above_1].
Qed.

Lemma to_float_in_range (n : Runtime.number) :
  Runtime.in_float_range n -> Runtime.to_float n = inr (Runtime.value n).
Proof. destruct n as [z | x]; cbn; [intros -> | ]; reflexivity. Qed.

(** The conversion raises nothing but [OverflowError]. *)
Lemma to_float_raises (n : Runtime.number) (e : Runtime.exn) :
  Runtime.to_float n = inl e -> e = Runtime.OverflowError.
Proof.
  destruct n as [z | x]; cbn; [|discriminate].
  destruct (Runtime.fits_float (inject_Z z)); [discriminate|].
  now intros [= <-].
Qed.

Lemma runtime_truediv_nonzero (x y : Q) :
  ~ y == 0 -> Runtime.truediv x y = inr (x / y).
Proof.
  intro H. unfold Runtime.truediv.
  destruct (Qeq_bool y 0) eqn:E; [|reflexivity].
  apply Qeq_bool_iff in E. contradiction.
Qed.

(** Away from a zero divisor the true division of ints raises nothing but
    [OverflowError]. *)
Lemma int_truediv_raises (a b : Z) (e : Runtime.exn) :
  b <> 0%Z -> Runtime.int_truediv a b = inl e -> e = Runtime.OverflowError.
Proof.
  intros Hb. unfold Runtime.int_truediv.
  destruct (Z.eqb_spec b 0); [contradiction|].
  destruct (Runtime.fits_float (inject_Z a / inject_Z b)); [discriminate|].
  now intros [= <-].
Qed.

Lemma int_truediv_ratio (a b : Z) :
  (0 <= a <= b)%Z -> (0 < b)%Z ->
  Runtime.int_truediv a b = inr (inject_Z a / inject_Z b).
Proof.
  intros Hab Hb. unfold Runtime.int_truediv.
  destruct (Z.eqb_spec b 0); [lia|].
  now rewrite fits_float_unit by (apply int_ratio_bounds; assumption).
Qed.

Lemma runtime_confidence_raises (self : t) (signal : Runtime.MarketSignal.t)
    (e : Runtime.exn) :
  Runtime.calculate_confidence self signal = inl e ->
  e = Runtime.OverflowError.
Proof.
  unfold Runtime.calculate_confidence.
  destruct (Runtime.to_float (Runtime.MarketSignal.volume signal))
    as [e1 | v] eqn:Ev.
  - intros [= <-]. exact (to_float_raises _ _ Ev).
  - rewrite runtime_truediv_nonzero by discriminate.
    destruct (Runtime.to_float (Runtime.MarketSignal.signal_strength signal))
      as [e2 | s] eqn:Es; [|discriminate].
    intros [= <-]. exact (to_float_raises _ _ Es).
Qed.

Lemma runtime_position_size_raises (self : t)
    (signal : Runtime.MarketSignal.t) (c : Q) (e : Runtime.exn) :
  Runtime.calculate_position_size self signal c = inl e ->
  e = Runtime.OverflowError.
Proof.
  unfold Runtime.calculate_position_size.
  destruct (Runtime.to_float (Runtime.MarketSignal.signal_strength signal))
    as [e1 | s] eqn:Es; [|discriminate].
  intros [= <-]. exact (to_float_raises _ _ Es).
Qed.

(** The score and the size of a signal whose numbers fit a float: those of
    the signal read exactly. *)
Lemma runtime_confidence_in_range (self : t) (signal : Runtime.MarketSignal.t) :
  Runtime.in_float_range (Runtime.MarketSignal.volume signal) ->
  Runtime.in_float_range (Runtime.MarketSignal.signal_strength signal) ->
  Runtime.calculate_confidence self signal =
  inr (Py.min
         (Py.min (Runtime.value (Runtime.MarketSignal.volume signal)
                  / 1000000.0) 1.0
          * Runtime.value (Runtime.MarketSignal.signal_strength signal)
          * PhoenixConfig.risk_tolerance (config self)) 1.0).
Proof.
  intros Hv Hs. unfold Runtime.calculate_confidence.
  rewrite (to_float_in_range _ Hv), (to_float_in_range _ Hs).
  now rewrite runtime_truediv_nonzero by discriminate.
Qed.

Lemma runtime_position_size_in_range (self : t)
    (signal : Runtime.MarketSignal.t) (c : Q) :
  Runtime.in_float_range (Runtime.MarketSignal.signal_strength signal) ->
  Runtime.calculate_position_size self signal c =
  inr (PhoenixConfig.max_position_size (config self) * c
       * (1.0 - Py.abs (Runtime.value
                          (Runtime.MarketSignal.signal_strength signal)
                        - 0.5))).
Proof.
  intro Hs. unfold Runtime.calculate_position_size.
  now rewrite (to_float_in_range _ Hs).
Qed.

End RuntimeFacts.

Section RuntimeContract.

Import PhoenixEngineDemo.

Ltac runtime_unfold :=
  unfold Runtime.process_signal, Runtime.print_signal, Runtime.bind,
    Runtime.get, Runtime.lift, Runtime.ret, Runtime.assign.

Lemma no_zero_division_ret {A : Type} (x : A) :
  Runtime.no_zero_division (Runtime.ret x).
Proof. intro self. discriminate. Qed.

Lemma no_zero_division_get : Runtime.no_zero_division Runtime.get.
Proof. intro self. discriminate. Qed.

Lemma no_zero_division_assign (f : PhoenixMetrics.t -> PhoenixMetrics.t) :
  Runtime.no_zero_division (Runtime.assign f).
Proof. intro self. discriminate. Qed.

Lemma no_zero_division_lift {A : Type} (r : Runtime.exn + A) :
  r <> inl Runtime.ZeroDivisionError -> Runtime.no_zero_division (Runtime.lift r).
Proof. intros H self. exact H. Qed.

Lemma no_zero_division_bind {A B : Type} (m : Runtime.M A)
    (k : A -> Runtime.M B) :
  Runtime.no_zero_division m -> (forall x, Runtime.no_zero_division (k x)) ->
  Runtime.no_zero_division (Runtime.bind m k).
Proof.
  intros Hm Hk self. unfold Runtime.bind.
  specialize (Hm self).
  destruct (m self) as [[e | x] self']; cbn in *; [|apply Hk].
  intros [= ->]. now apply Hm.
Qed.

(** No statement of [process_signal] raises [ZeroDivisionError], whatever
    the console, the signal and the engine are. *)
Lemma runtime_no_zero_division (console : option Runtime.print_error)
    (signal : Runtime.MarketSignal.t) (now : string) :
  Runtime.no_zero_division (Runtime.process_signal console signal now).
Proof.
  unfold Runtime.process_signal.
  apply no_zero_division_bind; [apply no_zero_division_get|]. intro self.
  destruct (negb (active self)); [apply no_zero_division_ret|].
  apply no_zero_division_bind.
  { apply no_zero_division_lift.
    destruct (Runtime.calculate_confidence self signal) as [e | c] eqn:E;
      [|discriminate].
    rewrite (runtime_confidence_raises _ _ _ E). discriminate. }
  intro c. destruct (Py.gt c 0.7); [|apply no_zero_division_ret].
  apply no_zero_division_bind.
  { apply no_zero_division_lift.
    destruct (Runtime.calculate_position_size self signal c) as [e | a] eqn:E;
      [|discriminate].
    rewrite (runtime_position_size_raises _ _ _ _ E). discriminate. }
  intro amount.
  apply no_zero_division_bind; [apply no_zero_division_assign|]. intros _.
  apply no_zero_division_bind.
  { destruct (Py.gt c 0.8); [|apply no_zero_division_ret].
    apply no_zero_division_bind; [apply no_zero_division_assign|]. intros _.
    apply no_zero_division_assign. }
  intros _.
  apply no_zero_division_bind; [apply no_zero_division_get|]. intro self1.
  apply no_zero_division_bind.
  { destruct (Z.gtb_spec (PhoenixMetrics.total_trades (metrics self1)) 0)
      as [Hpos | Hneg]; [|apply no_zero_division_ret].
    apply no_zero_division_bind; [|intro w; apply no_zero_division_assign].
    apply no_zero_division_lift.
    destruct (Runtime.int_truediv
                (PhoenixMetrics.successful_trades (metrics self1))
                (PhoenixMetrics.total_trades (metrics self1)))
      as [e | w] eqn:E; [|discriminate].
    assert (Hnz : PhoenixMetrics.total_trades (metrics self1) <> 0%Z) by lia.
    rewrite (int_truediv_raises _ _ e Hnz E). discriminate. }
  intros _.
  apply no_zero_division_bind; [|intros _; apply no_zero_division_ret].
  unfold Runtime.print_signal.
  apply no_zero_division_bind.
  { apply no_zero_division_lift.
    destruct (Runtime.to_float (Runtime.MarketSignal.price signal))
      as [e | p] eqn:E; [|discriminate].
    rewrite (to_float_raises _ _ E). discriminate. }
  intros _. destruct console as [e | ].
  - apply no_zero_division_lift. discriminate.
  - apply no_zero_division_ret.
Qed.

(** With numbers that fit a float, counters as the engine keeps them and a
    console that accepts the line, the call returns. *)
Lemma runtime_returns (signal : Runtime.MarketSignal.t) (now : string)
    (self : t) :
  Runtime.in_float_range (Runtime.MarketSignal.price signal) ->
  Runtime.in_float_range (Runtime.MarketSignal.volume signal) ->
  Runtime.in_float_range (Runtime.MarketSignal.signal_strength signal) ->
  (0 <= PhoenixMetrics.successful_trades (metrics self)
     <= PhoenixMetrics.total_trades (metrics self))%Z ->
  exists r self',
    Runtime.process_signal None signal now self = (inr r, self').
Proof.
  intros Hp Hv Hs Hc. runtime_unfold. cbn.
  destruct (active self); cbn; [|eauto].
  rewrite (runtime_confidence_in_range self signal Hv Hs). cbn.
  match goal with |- context [Py.gt ?c 0.7] => set (conf := c) end.
  destruct (Py.gt conf 0.7); cbn; [|eauto].
  rewrite (runtime_position_size_in_range self signal conf Hs). cbn.
  rewrite (to_float_in_range _ Hp).
  destruct (Py.gt conf 0.8); cbn;
    match goal with
    | |- context [(?t >? 0)%Z] =>
        destruct (Z.gtb_spec t 0) as [Hpos | Hneg]; [|lia]
    end; cbn;
    rewrite int_truediv_ratio by lia; cbn; eauto.
Qed.

(** The call on a signal whose numbers fit a float, with counters as the
    engine keeps them: nothing is returned and the engine is untouched, or
    the metrics are updated as [update_metrics] says and then the console
    decides between the trade and its exception. *)
Lemma runtime_process_cases (console : option Runtime.print_error)
    (signal : Runtime.MarketSignal.t) (now : string) (self : t) :
  Runtime.in_float_range (Runtime.MarketSignal.price signal) ->
  Runtime.in_float_range (Runtime.MarketSignal.volume signal) ->
  Runtime.in_float_range (Runtime.MarketSignal.signal_strength signal) ->
  (0 <= PhoenixMetrics.successful_trades (metrics self)
     <= PhoenixMetrics.total_trades (metrics self))%Z ->
  exists c a,
    Runtime.calculate_confidence self signal = inr c /\
    Runtime.calculate_position_size self signal c = inr a /\
    (((active self = false \/ Py.gt c 0.7 = false) /\
      Runtime.process_signal console signal now self = (inr None, self))
     \/
     (active self = true /\ Py.gt c 0.7 = true /\
      exists m,
        update_metrics (metrics self) c a = Py.ret m /\
        Runtime.process_signal console signal now self =
        (match console with
         | None =>
             inr (Some (Runtime.TradingSignal.mk
                          (if Py.gt (Runtime.value
                                       (Runtime.MarketSignal.signal_strength
                                          signal)) 0.5
                           then "BUY"%string else "SELL"%string)
                          (Runtime.MarketSignal.token signal) a
                          (Runtime.MarketSignal.price signal) c now))
         | Some e => inl (Runtime.PrintError e)
         end,
         set_metrics self m))).
Proof.
  intros Hp Hv Hs Hc.
  eexists _, _.
  split; [apply (runtime_confidence_in_range self signal Hv Hs)|].
  split; [apply (runtime_position_size_in_range self signal _ Hs)|].
  match goal with |- context [Py.gt ?c 0.7] => set (conf := c) end.
  match goal with
  | |- context [update_metrics _ _ ?a] => set (amount := a)
  end.
  runtime_unfold. cbn.
  destruct (active self) eqn:Ha; cbn; [|left; split; [now left | reflexivity]].
  rewrite (runtime_confidence_in_range self signal Hv Hs). cbn. fold conf.
  destruct (Py.gt conf 0.7) eqn:Hg; cbn;
    [|left; split; [now right | reflexivity]].
  right. split; [reflexivity|]. split; [reflexivity|].
  rewrite (runtime_position_size_in_range self signal conf Hs). cbn.
  fold amount.
  rewrite (to_float_in_range _ Hp).
  eexists. split; [apply update_metrics_eq|].
  destruct (Py.gt conf 0.8); cbn;
    match goal with
    | |- context [(?t >? 0)%Z] =>
        destruct (Z.gtb_spec t 0) as [Hpos | Hneg]; [|lia]
    end; cbn;
    rewrite int_truediv_ratio by lia; cbn;
    destruct console; reflexivity.
Qed.

(** On a signal with float fields, with counters as the engine keeps them
    and a console that accepts the line, the call with its exceptions and
    its print returns what [PhoenixEngineDemo.process_signal] returns and
    leaves the same engine. *)
Lemma runtime_agrees (signal : MarketSignal.t) (now : string) (self : t) :
  (0 <= PhoenixMetrics.successful_trades (metrics self)
     <= PhoenixMetrics.total_trades (metrics self))%Z ->
  exists r self',
    process_signal self signal now = Py.ret (r, self') /\
    Runtime.process_signal None (of_signal signal) now self
    = (inr (option_map of_trade r), self').
Proof.
  intro Hc.
  destruct (runtime_process_cases None (of_signal signal) now self I I I Hc)
    as (c & a & Ec & Ea & Hcases).
  assert (Hconf : calculate_confidence self signal = Py.ret c).
  { rewrite calculate_confidence_eq.
    rewrite (runtime_confidence_in_range self (of_signal signal) I I) in Ec.
    injection Ec as <-. reflexivity. }
  assert (Hsize : calculate_position_size self signal c = a).
  { rewrite (runtime_position_size_in_range self (of_signal signal) c I) in Ea.
    injection Ea as <-. reflexivity. }
  destruct Hcases as [[Hno E] | (Ha & Hg & m & Hm & E)].
  - exists None, self. split; [|exact E].
    destruct Hno as [Hoff | Hg].
    + now apply process_signal_inactive_eq.
    + destruct (active self) eqn:Ha.
      * apply (process_signal_reject_eq self signal now c Ha Hconf Hg).
      * now apply process_signal_inactive_eq.
  - eexists _, _. split.
    + rewrite (process_signal_accept_eq self signal now c Ha Hconf Hg).
      rewrite Hsize, Hm. reflexivity.
    + rewrite E, <- Hsize. reflexivity.
Qed.

(** C8, as the code has it.  No statement of [process_signal] raises
    [ZeroDivisionError], for any console, signal and engine: the division
    of the score is by the literal 1000000.0 and the division of the win
    rate runs only under [total_trades > 0].  The call raises nothing at
    all, and returns, when the price, the volume and the strength of the
    signal are floats or ints inside the float range, the counters of the
    engine have [0 <= successful_trades <= total_trades], and the console
    accepts the printed line. *)
Theorem process_signal_exceptions (console : option Runtime.print_error)
    (signal : Runtime.MarketSignal.t) (now : string) (self : t) :
  fst (Runtime.process_signal console signal now self)
  <> inl Runtime.ZeroDivisionError /\
  (Runtime.in_float_range (Runtime.MarketSignal.price signal) ->
   Runtime.in_float_range (Runtime.MarketSignal.volume signal) ->
   Runtime.in_float_range (Runtime.MarketSignal.signal_strength signal) ->
   (0 <= PhoenixMetrics.successful_trades (metrics self)
      <= PhoenixMetrics.total_trades (metrics self))%Z ->
   exists r self',
     Runtime.process_signal None signal now self = (inr r, self')).
Proof.
  split.
  - apply runtime_no_zero_division.
  - intros Hp Hv Hs Hc. now apply runtime_returns.
Qed.

(** C8 does not hold for every input.  On the demo engine a signal whose
    volume is the int 10^400 raises [OverflowError] at the division of
    the score; and on a console that cannot encode the printed line the
    signal A raises [UnicodeEncodeError] from the print, after the trade
    has been counted: [total_trades] is 1 in the engine left behind and no
    trade is returned. *)
Lemma process_signal_can_raise :
  Runtime.process_signal None signal_huge_volume now0 phoenix
  = (inl Runtime.OverflowError, phoenix) /\
  exists self',
    Runtime.process_signal (Some Runtime.UnicodeEncodeError)
      (of_signal signal_A) now0 phoenix
    = (inl (Runtime.PrintError Runtime.UnicodeEncodeError), self') /\
    PhoenixMetrics.total_trades (metrics phoenix) = 0%Z /\
    PhoenixMetrics.total_trades (metrics self') = 1%Z.
Proof.
  split.
  - vm_compute. reflexivity.
  - eexists. split; [vm_compute; reflexivity|].
    split; reflexivity.
Qed.

Lemma process_signal_exceptions_witness :
  fst (Runtime.process_signal None signal_int_volume now0 phoenix)
  <> inl Runtime.ZeroDivisionError /\
  exists r self',
    Runtime.process_signal None signal_int_volume now0 phoenix = (inr r, self').
Proof.
  destruct (process_signal_exceptions None signal_int_volume now0 phoenix)
    as [Hzero Hret].
  split; [exact Hzero|].
  apply Hret.
  - exact I.
  - vm_compute. reflexivity.
  - exact I.
  - cbn. lia.
Defined.

(** The int volume 2,000,000 is traded as the float volume is. *)
Example int_volume_trade :
  exists ts self',
    Runtime.process_signal None signal_int_volume now0 phoenix
    = (inr (Some ts), self') /\
    Runtime.TradingSignal.action ts = "BUY"%string /\
    Runtime.TradingSignal.amount ts == 45.9 /\
    PhoenixMetrics.total_trades (metrics self') = 1%Z.
Proof.
  eexists _, _. split; [vm_compute; reflexivity|].
  vm_compute. repeat split; reflexivity.
Qed.

End RuntimeContract.
